(** * graphql-js-client: the client entry point and the type dependency tracker

    A shallow embedding of [Client] (constructor, [send], [fetchNextPage],
    [fetchAllPages], [refetch]) and of the module-level helper
    [hasNextPage], together with a model of the type dependency tracker that
    the tracker's test suite exercises.

    JavaScript data is embedded as follows.
    - A value is a [Value]; numbers are integers ([Z]), which is all the
      client ever inspects ([length], truthiness).  Plain objects are finite
      maps from property names to values; [Object.assign] is a left-biased
      union.  Property reads ignore the prototype chain.
    - An optional argument of object type is an [option]: [None] stands for
      [null] and [undefined] alike (the parameters of [send] default to
      [null]).
    - A synchronous [throw] is the [Throw] case of [Completion].
    - A promise is a [Promise]: a tree whose [Await] nodes are the calls of
      the transport (the fetcher) and whose branches are the [then]
      callbacks.  The reply of the transport is chosen by the environment. *)

From Stdlib Require Import ZArith.
From stdpp Require Import base strings gmap list sorting pretty.

Set Warnings "-register-all".
Local Open Scope string_scope.
Local Open Scope list_scope.

(** ** Schema and operations, as far as the client reads them *)

Module Schema.

(** Modelled from the spec: the type bundle is an input produced by
    graphql-js-schema; the client reads [name] and [implementsNode] of a
    model's type and nothing else. *)
Record TypeDescriptor : Type := {
  name : string;
  implementsNode : bool
}.

Definition TypeBundle : Type := gmap string TypeDescriptor.

End Schema.

Module Ast.

Inductive OperationType : Type := query | mutation.

Inductive Selection : Type :=
| Field (responseKey : string) (selections : list Selection)
| InlineFragment (typeName : string) (selections : list Selection).

(** Modelled from the spec: operation.js, query.js, mutation.js and
    document.js are not among the sources.  The client reads [name] of an
    operation and [operations] of a document; the rest is carried to
    [toString] and [decode]. *)
Record Operation : Type := {
  operationType : OperationType;
  name : option string;
  selectionSet : list Selection
}.

Record Document : Type := {
  operations : list Operation
}.

(** What [Operation.prototype.isPrototypeOf] tells apart. *)
Inductive OperationOrDocument : Type :=
| IsOperation (operation : Operation)
| IsDocument (document : Document).

End Ast.

(** ** Values *)

(** Modelled from the spec: graph-model.js and decode.js, which build the
    decoded models, are not among the sources.  A model has its decoded
    fields ([attrs]), its [type], and what the client asks of it:
    [hasNextPage], [variableValues], the result of [nextPageQueryAndPath()]
    ([None] on a model that is not part of a connection, where the method is
    not defined) and the result of [refetchQuery()]. *)
Inductive Value : Type :=
| VUndefined
| VNull
| VBool (b : bool)
| VNum (n : Z)
| VStr (s : string)
| VArr (items : list Value)
| VObj (props : gmap string Value)
| VModel (model : GraphModel)
with GraphModel : Type :=
| mkGraphModel
    (attrs : gmap string Value)
    (type : Schema.TypeDescriptor)
    (hasNextPage : Value)
    (variableValues : Value)
    (nextPageQueryAndPath : option (Ast.Operation * list string))
    (refetchQuery : Ast.Operation).

Abbreviation Object := (gmap string Value).

(** The members of a decoded model. *)
Module Model.

Definition attrs (m : GraphModel) : Object :=
  match m with mkGraphModel a _ _ _ _ _ => a end.
Definition type (m : GraphModel) : Schema.TypeDescriptor :=
  match m with mkGraphModel _ t _ _ _ _ => t end.
Definition hasNextPage (m : GraphModel) : Value :=
  match m with mkGraphModel _ _ h _ _ _ => h end.
Definition variableValues (m : GraphModel) : Value :=
  match m with mkGraphModel _ _ _ v _ _ => v end.
Definition nextPageQueryAndPath (m : GraphModel)
  : option (Ast.Operation * list string) :=
  match m with mkGraphModel _ _ _ _ n _ => n end.
Definition refetchQuery (m : GraphModel) : Ast.Operation :=
  match m with mkGraphModel _ _ _ _ _ r => r end.

End Model.

(** ** Exceptions, synchronous completions and promises *)

Inductive Exn : Type :=
| TypeError                      (* raised by the engine *)
| JsError (message : string)     (* [new Error(message)] *)
| Failure (reason : Value).      (* whatever a transport rejects with *)

Inductive Completion (A : Type) : Type :=
| Return (a : A)
| Throw (e : Exn).
Arguments Return {A} a.
Arguments Throw {A} e.

#[global] Instance Completion_ret : MRet Completion := @Return.
#[global] Instance Completion_bind : MBind Completion := λ A B f c,
  match c with
  | Return a => f a
  | Throw e => Throw e
  end.

(** Modelled from the spec: http-fetcher.js is not among the sources.  A
    transport is the function [httpFetcher(url, fetcherOptions)] returns, or
    a function the caller supplies, known by a label; what it answers is
    the environment's choice (see [Promise]). *)
Inductive Fetcher : Type :=
| httpFetcher (url : string) (fetcherOptions : option Object)
| customFetcher (label : string).

(** How the promise returned by the transport settles. *)
Inductive Reply : Type :=
| Fulfilled (response : Object)
| Failed (reason : Exn).

(** A promise as the caller sees it: settled, or waiting for the transport
    to answer the call it has just made ([Await]), the rest of the chain
    being a function of the answer.  [Pending] is a chain cut short by the
    bound of [fetchAllPages]. *)
Inductive Promise (A : Type) : Type :=
| Resolved (a : A)
| Rejected (e : Exn)
| Pending
| Await (fetcher : Fetcher) (graphQLParams : Object) (headers : option Object)
        (k : Reply → Promise A).
Arguments Resolved {A} a.
Arguments Rejected {A} e.
Arguments Pending {A}.
Arguments Await {A} fetcher graphQLParams headers k.

(** [fetcher(graphQLParams, headers)] *)
Definition call (fetcher : Fetcher) (graphQLParams : Object)
    (headers : option Object) : Promise Object :=
  Await fetcher graphQLParams headers (λ reply,
    match reply with
    | Fulfilled response => Resolved response
    | Failed reason => Rejected reason
    end).

(** [promise.then(onFulfilled)], for a callback that returns a promise. *)
Fixpoint then_ {A B : Type} (promise : Promise A)
    (onFulfilled : A → Promise B) : Promise B :=
  match promise with
  | Resolved a => onFulfilled a
  | Rejected e => Rejected e
  | Pending => Pending
  | Await f p h k => Await f p h (λ reply, then_ (k reply) onFulfilled)
  end.

(** A callback that returns a value or throws: a throw rejects. *)
Definition settle {A : Type} (c : Completion A) : Promise A :=
  match c with
  | Return a => Resolved a
  | Throw e => Rejected e
  end.

(** A callback that returns a promise or throws. *)
Definition flatten {A : Type} (c : Completion (Promise A)) : Promise A :=
  match c with
  | Return p => p
  | Throw e => Rejected e
  end.

(** ** Operators *)

Definition truthy (v : Value) : bool :=
  match v with
  | VUndefined | VNull => false
  | VBool b => b
  | VNum n => negb (n =? 0)%Z
  | VStr s => negb (String.eqb s "")
  | VArr _ | VObj _ | VModel _ => true
  end.

(** [object.key] on a plain object: a missing property reads [undefined]. *)
Definition get (object : Object) (key : string) : Value :=
  default VUndefined (object !! key).

(** [items[key]] for a key that is the decimal form of an index. *)
Definition atIndex (items : list Value) (key : string) : Value :=
  default VUndefined
    (snd <$> head (filter (λ p, bool_decide (pretty (fst p) = key))
                          (imap pair items))).

Definition chars (s : string) : list Value :=
  (λ a, VStr (String a "")) <$> String.list_ascii_of_string s.

(** [value[key]] *)
Definition getProp (value : Value) (key : string) : Completion Value :=
  match value with
  | VUndefined | VNull => Throw TypeError
  | VBool _ | VNum _ => Return VUndefined
  | VStr s =>
      Return (if bool_decide (key = "length")
              then VNum (Z.of_nat (String.length s))
              else atIndex (chars s) key)
  | VArr items =>
      Return (if bool_decide (key = "length")
              then VNum (Z.of_nat (length items))
              else atIndex items key)
  | VObj props => Return (get props key)
  | VModel m =>
      Return (if bool_decide (key = "hasNextPage") then Model.hasNextPage m
              else if bool_decide (key = "variableValues")
                   then Model.variableValues m
                   else get (Model.attrs m) key)
  end.

(** The own enumerable properties [Object.assign] copies from a source. *)
Definition ownProps (source : Value) : Object :=
  match source with
  | VObj props => props
  | VModel m => Model.attrs m
  | VArr items => list_to_map (imap (λ i v, (pretty i, v)) items)
  | VStr s => list_to_map (imap (λ i v, (pretty i, v)) (chars s))
  | _ => ∅
  end.

(** [Object.assign(target, source)]: properties of the source win. *)
Definition assign (target : Object) (source : Value) : Object :=
  ownProps source ∪ target.

Definition optional (o : option Object) : Value :=
  match o with
  | Some props => VObj props
  | None => VNull
  end.

(** [name === value] for an operation's name (a string, or [undefined] on an
    anonymous operation). *)
Definition strictEquals (name : option string) (value : Value) : bool :=
  match name, value with
  | Some s, VStr t => String.eqb s t
  | None, VUndefined => true
  | _, _ => false
  end.

(** ** The client *)

(** Modelled from the spec: class-registry.js is not among the sources; a
    registry maps a type name to the class of its models.  The client only
    stores it and hands it to [decode]. *)
Definition ClassRegistry : Type := gmap string string.

(** [new ClassRegistry()] *)
Definition newClassRegistry : ClassRegistry := ∅.

Record Client : Type := {
  typeBundle : Schema.TypeBundle;
  classRegistry : ClassRegistry;
  fetcher : Fetcher
}.

(** The options object of the constructor; an absent property is [None]. *)
Module Options.

Record t : Type := {
  url : option string;
  fetcherOptions : option Object;
  fetcher : option Fetcher;
  registry : option ClassRegistry
}.

End Options.

(** An optional string that is truthy: present and not empty. *)
Definition nonEmpty (s : option string) : option string :=
  match s with
  | Some s => if String.eqb s "" then None else Some s
  | None => None
  end.

(** An optional object or function is truthy when it is present. *)
Definition present {A : Type} (o : option A) : bool :=
  match o with
  | Some _ => true
  | None => false
  end.

Definition urlAndFetcherMessage : string :=
  "Arguments not supported: supply either `url` and optional `fetcherOptions` OR use a `fetcher` function for further customization.".

Definition fetcherOptionsMessage : string :=
  "Arguments not supported: when specifying your own `fetcher`, set options through it and not with `fetcherOptions`".

Definition noTransportMessage : string :=
  "Invalid arguments: one of `url` or `fetcher` is needed.".

(** The three tests of the constructor, [url && fetcher], [url] and
    [fetcher], read the truthiness of the two options. *)
Definition constructor (typeBundle : Schema.TypeBundle) (options : Options.t)
  : Completion Client :=
  let fetcherOptions := Options.fetcherOptions options in
  let registry := default newClassRegistry (Options.registry options) in
  match nonEmpty (Options.url options), Options.fetcher options with
  | Some _, Some _ => Throw (JsError urlAndFetcherMessage)
  | Some url, None =>
      Return {| typeBundle := typeBundle; classRegistry := registry;
                fetcher := httpFetcher url fetcherOptions |}
  | None, Some fetcher =>
      if present fetcherOptions then Throw (JsError fetcherOptionsMessage)
      else Return {| typeBundle := typeBundle; classRegistry := registry;
                     fetcher := fetcher |}
  | None, None => Throw (JsError noTransportMessage)
  end.

(** What [send] accepts: an operation or a document, or a function that
    receives the client and returns one. *)
Inductive Request : Type :=
| RequestValue (operationOrDocument : Ast.OperationOrDocument)
| RequestFunction (request : Client → Ast.OperationOrDocument).

Definition ambiguousOperationMessage : string :=
  "
          A document must contain exactly one operation, or an operationName
          must be specified. Example:

            client.send(document, null, {operationName: 'myFancyQuery'});
        ".

Definition refetchNullMessage : string :=
  "'client#refetch' must be called with a non-null instance of a Node.".

Definition refetchTypeMessage (typeName : string) : string :=
  "'client#refetch' must be called with a type that implements Node. Received "
  +:+ typeName +:+ ".".

(** [function hasNextPage(paginatedModels)]: the value of
    [paginatedModels && paginatedModels.length && last.hasNextPage]. *)
Definition hasNextPage (paginatedModels : option (list Value))
  : Completion Value :=
  match paginatedModels with
  | None => Return VNull
  | Some items =>
      match last items with
      | None => Return (VNum 0)
      | Some node => getProp node "hasNextPage"
      end
  end.

(** [node.nextPageQueryAndPath()] *)
Definition callNextPageQueryAndPath (node : Value)
  : Completion (Ast.Operation * list string) :=
  match node with
  | VModel m =>
      match Model.nextPageQueryAndPath m with
      | Some queryAndPath => Return queryAndPath
      | None => Throw TypeError
      end
  | _ => Throw TypeError
  end.

(** [path.reduce((object, key) => object[key], model)] *)
Definition reducePath (path : list string) (model : Value) : Completion Value :=
  foldl (λ object key, object ≫= λ o, getProp o key) (Return model) path.

(** [paginatedModels.concat(model)]: an array argument is spread. *)
Definition concat (paginatedModels : option (list Value)) (model : Value)
  : Completion (list Value) :=
  match paginatedModels with
  | None => Throw TypeError
  | Some items =>
      Return (items ++ match model with
                       | VArr more => more
                       | _ => [model]
                       end)
  end.

(** An array argument, or [null]. *)
Definition arrayOrNull (paginatedModels : option (list Value)) : Value :=
  match paginatedModels with
  | Some items => VArr items
  | None => VNull
  end.

Section Client.

(** [operationOrDocument.toString(inContextDirective)] of operation.js and
    document.js, and [decode] of decode.js: not among the sources, taken as
    they are called.  [toString] returns a text; [decode] may throw. *)
Variable toString : Ast.OperationOrDocument → Value → string.
Variable decode :
  option Ast.Operation → Value → ClassRegistry → option Object → Completion Value.

(** The part of [send] that chooses the operation it hands to [decode];
    [None] is [undefined].  Without other properties the test
    [otherProperties.operationName] reads a property of [null]. *)
Definition selectOperation (operationOrDocument : Ast.OperationOrDocument)
    (otherProperties : option Object) : Completion (option Ast.Operation) :=
  match operationOrDocument with
  | Ast.IsOperation operation => Return (Some operation)
  | Ast.IsDocument document =>
      match Ast.operations document with
      | [operation] => Return (Some operation)
      | operations =>
          match otherProperties with
          | None => Throw TypeError
          | Some properties =>
              let operationName := get properties "operationName" in
              if truthy operationName then
                Return (find (λ documentOperation,
                                strictEquals (Ast.name documentOperation)
                                             operationName)
                             operations)
              else Throw (JsError ambiguousOperationMessage)
          end
      end
  end.

(** The callback [send] chains on the transport's promise. *)
Definition onResponse (this : Client) (operation : option Ast.Operation)
    (variableValues : option Object) (response : Object) : Promise Object :=
  if truthy (get response "data") then
    match decode operation (get response "data") (classRegistry this)
                 variableValues with
    | Return model => Resolved (<["model" := model]> response)
    | Throw e => Rejected e
    end
  else Resolved response.

Definition send (this : Client) (request : Request)
    (variableValues otherProperties headers : option Object)
    (inContextDirective : Value) : Completion (Promise Object) :=
  let operationOrDocument :=
    match request with
    | RequestFunction f => f this
    | RequestValue r => r
    end in
  let graphQLParams : Object :=
    {[ "query" := VStr (toString operationOrDocument inContextDirective) ]} in
  let graphQLParams :=
    match variableValues with
    | Some values => <["variables" := VObj values]> graphQLParams
    | None => graphQLParams
    end in
  let graphQLParams := assign graphQLParams (optional otherProperties) in
  operation ← selectOperation operationOrDocument otherProperties;
  Return (then_ (call (fetcher this) graphQLParams headers)
                (onResponse this operation variableValues)).

Definition fetchNextPage (this : Client) (nodeOrNodes : Value)
    (options : option Object) : Completion (Promise Object) :=
  let node :=
    match nodeOrNodes with
    | VArr items => default VUndefined (last items)
    | _ => nodeOrNodes
    end in
  '(query, path) ← callNextPageQueryAndPath node;
  nodeVariableValues ← getProp node "variableValues";
  let variableValues :=
    if truthy nodeVariableValues || present options
    then Some (assign (assign ∅ nodeVariableValues) (optional options))
    else None in
  promise ← send this (RequestValue (Ast.IsOperation query)) variableValues
                 None None VNull;
  Return (then_ promise (λ response,
    match reducePath path (get response "model") with
    | Return model => Resolved (<["model" := model]> response)
    | Throw e => Rejected e
    end)).

(** [fuel] bounds the number of further pages the chain of callbacks may ask
    for; a chain that would go on is left [Pending]. *)
Fixpoint fetchAllPages (fuel : nat) (this : Client)
    (paginatedModels : option (list Value)) (options : Object)
  : Completion (Promise (option (list Value))) :=
  let pageSize := get options "pageSize" in
  more ← hasNextPage paginatedModels;
  if truthy more then
    promise ← fetchNextPage this (arrayOrNull paginatedModels)
                            (Some {[ "first" := pageSize ]});
    Return (then_ promise (λ response,
      let model := get response "model" in
      match concat paginatedModels model with
      | Throw e => Rejected e
      | Return pages =>
          match fuel with
          | O => Pending
          | S fuel' =>
              flatten (fetchAllPages fuel' this (Some pages)
                                     {[ "pageSize" := pageSize ]})
          end
      end))
  else Return (Resolved paginatedModels).

Definition refetch (this : Client) (nodeType : option GraphModel)
  : Completion (Promise Value) :=
  match nodeType with
  | None => Throw (JsError refetchNullMessage)
  | Some node =>
      if negb (Schema.implementsNode (Model.type node)) then
        Throw (JsError (refetchTypeMessage (Schema.name (Model.type node))))
      else
        promise ← send this
                       (RequestValue (Ast.IsOperation (Model.refetchQuery node)))
                       None None None VNull;
        Return (then_ promise (λ response,
          settle (getProp (get response "model") "node")))
  end.

End Client.

(** ** The type dependency tracker *)

Module Tracker.

(** Modelled from the spec: track-type-dependency.js is not among the
    sources, only its test suite is.  The tracker is process-wide state: a
    switch that says whether recording is enabled, and the type names
    observed since the last reset, most recent first. *)
Record State : Type := {
  recording : bool;
  observed : list string
}.

(** Modelled from the spec: the pristine initial state of the tracker, with
    recording disabled and nothing observed. *)
Definition pristine : State :=
  {| recording := false; observed := [] |}.

(** Modelled from the spec: [startTracking()] enables recording. *)
Definition startTracking (s : State) : State :=
  {| recording := true; observed := observed s |}.

(** Modelled from the spec: [pauseTracking()] disables recording without
    clearing accumulated state. *)
Definition pauseTracking (s : State) : State :=
  {| recording := false; observed := observed s |}.

(** Modelled from the spec: [resetTracker()] clears accumulated state and
    disables recording. *)
Definition resetTracker (s : State) : State := pristine.

(** Modelled from the spec: what the selection set builder does to the
    tracker for a type it touches: the name is recorded if the tracker is
    active. *)
Definition trackTypeDependency (typeName : string) (s : State) : State :=
  if recording s
  then {| recording := true; observed := typeName :: observed s |}
  else s.

(** Modelled from the spec: [trackedTypes()] is the deduplicated, sorted
    sequence of the type names observed since the last reset. *)
Definition trackedTypes (s : State) : list string :=
  merge_sort String.le (remove_dups (observed s)).

(** Modelled from the spec: [printTypes()] writes the comma-joined
    sequence; the line written is returned. *)
Definition printTypes (s : State) : string :=
  String.concat "," (trackedTypes s).

(** Modelled from the spec: building a query.  selection-set.js and the
    schema fixture of the tests are not among the sources, so a build is
    given by the type names its selections report, in the order the builder
    visits them. *)
Fixpoint build (typeNames : list string) (s : State) : State :=
  match typeNames with
  | [] => s
  | typeName :: rest => build rest (trackTypeDependency typeName s)
  end.

(** The calls a test makes on the tracker. *)
Inductive Step : Type :=
| StartTracking
| PauseTracking
| ResetTracker
| NewQuery (typeNames : list string).

Definition step (st : Step) (s : State) : State :=
  match st with
  | StartTracking => startTracking s
  | PauseTracking => pauseTracking s
  | ResetTracker => resetTracker s
  | NewQuery typeNames => build typeNames s
  end.

Fixpoint run (steps : list Step) (s : State) : State :=
  match steps with
  | [] => s
  | st :: rest => run rest (step st s)
  end.

(** The type names the tracker's test expects for the nested
    shop, products, variants query. *)
Definition nestedQueryTypes : list string :=
  [ "Boolean"; "ID"; "Money"; "PageInfo"; "Product"; "ProductConnection";
    "ProductEdge"; "ProductVariant"; "ProductVariantConnection";
    "ProductVariantEdge"; "QueryRoot"; "Shop"; "String" ].

(** A sequence of type names, with repetitions and out of order, in which
    each of these thirteen names occurs; it is test data and stands for no
    particular builder. *)
Definition nestedQueryTrace : list string :=
  [ "QueryRoot"; "Shop"; "Shop"; "String"; "Shop"; "ProductConnection";
    "ProductConnection"; "PageInfo"; "PageInfo"; "Boolean"; "PageInfo";
    "Boolean"; "ProductConnection"; "ProductEdge"; "ProductEdge"; "String";
    "ProductEdge"; "Product"; "Product"; "ID"; "Product"; "String";
    "Product"; "ProductVariantConnection"; "ProductVariantConnection";
    "PageInfo"; "ProductVariantConnection"; "ProductVariantEdge";
    "ProductVariantEdge"; "String"; "ProductVariantEdge"; "ProductVariant";
    "ProductVariant"; "ID"; "ProductVariant"; "Money" ].

End Tracker.

(** ** Test doubles *)

Module Fixture.

Definition shopQuery : Ast.Operation :=
  {| Ast.operationType := Ast.query;
     Ast.name := Some "shopQuery";
     Ast.selectionSet := [Ast.Field "shop" [Ast.Field "name" []]] |}.

Definition nodeQuery : Ast.Operation :=
  {| Ast.operationType := Ast.query;
     Ast.name := Some "nodeQuery";
     Ast.selectionSet := [Ast.Field "node" [Ast.Field "id" []]] |}.

Definition twoQueries : Ast.Document :=
  {| Ast.operations := [shopQuery; nodeQuery] |}.

(** A stand-in for [toString]: the names of the operations rendered. *)
Definition render (operationOrDocument : Ast.OperationOrDocument)
    (inContextDirective : Value) : string :=
  match operationOrDocument with
  | Ast.IsOperation operation => default "" (Ast.name operation)
  | Ast.IsDocument document =>
      String.concat " " ((λ o, default "" (Ast.name o))
                           <$> Ast.operations document)
  end.

(** A stand-in for [decode] that hands the data back as the model, and
    throws when it is given no operation. *)
Definition decodeData (operation : option Ast.Operation) (data : Value)
    (registry : ClassRegistry) (variableValues : option Object)
  : Completion Value :=
  match operation with
  | Some _ => Return data
  | None => Throw TypeError
  end.

(** A stand-in for [decode] that always throws. *)
Definition decodeThrows (operation : option Ast.Operation) (data : Value)
    (registry : ClassRegistry) (variableValues : option Object)
  : Completion Value :=
  Throw TypeError.

Definition client : Client :=
  {| typeBundle := ∅; classRegistry := newClassRegistry;
     fetcher := customFetcher "mock" |}.

Definition productType : Schema.TypeDescriptor :=
  {| Schema.name := "Product"; Schema.implementsNode := true |}.

Definition shopType : Schema.TypeDescriptor :=
  {| Schema.name := "Shop"; Schema.implementsNode := false |}.

(** A product decoded as the last node of a page that has a next page. *)
Definition product : GraphModel :=
  mkGraphModel {[ "id" := VStr "gid://shopify/Product/1" ]} productType
    (VBool true) VNull (Some (nodeQuery, ["node"; "products"])) nodeQuery.

(** A product decoded as the last node of the last page. *)
Definition lastProduct : GraphModel :=
  mkGraphModel {[ "id" := VStr "gid://shopify/Product/2" ]} productType
    (VBool false) VNull (Some (nodeQuery, ["node"; "products"])) nodeQuery.

Definition shop : GraphModel :=
  mkGraphModel {[ "name" := VStr "Snowdevil" ]} shopType
    VUndefined VNull None shopQuery.

(** The promise of sending [shopQuery] alone, decoded by [decodeThrows]. *)
Definition shopPromise : Promise Object :=
  then_ (call (fetcher client) {[ "query" := VStr "shopQuery" ]} None)
        (onResponse decodeThrows client (Some shopQuery) None).

(** The page that follows [product]: its only node is [lastProduct]. *)
Definition secondPage : Object :=
  {[ "data" :=
       VObj {[ "node" := VObj {[ "products" := VArr [VModel lastProduct] ]} ]} ]}.

(** A response to the refetch of [product]. *)
Definition nodeResponse : Object :=
  {[ "data" :=
       VObj {[ "node" := VObj {[ "id" := VStr "gid://shopify/Product/1" ]} ]} ]}.

End Fixture.

(** ** Following a promise *)

(** [resolves promise a]: there are answers of the transport after which the
    promise is resolved with [a]. *)
Inductive resolves {A : Type} : Promise A → A → Prop :=
| resolves_now (a : A) : resolves (Resolved a) a
| resolves_later (f : Fetcher) (params : Object) (headers : option Object)
    (k : Reply → Promise A) (reply : Reply) (a : A) :
    resolves (k reply) a → resolves (Await f params headers k) a.

(** Every call of the transport the promise may make, whatever the answers,
    satisfies [P]. *)
Fixpoint everyCall {A : Type} (P : Fetcher → Object → option Object → Prop)
    (promise : Promise A) : Prop :=
  match promise with
  | Await f params headers k =>
      P f params headers ∧ ∀ reply, everyCall P (k reply)
  | _ => True
  end.

(** The promise is settled: no call of the transport is left to answer. *)
Definition settled {A : Type} (promise : Promise A) : Prop :=
  match promise with
  | Resolved _ | Rejected _ => True
  | Pending | Await _ _ _ _ => False
  end.

(** The promise after its calls, in turn, were answered by the replies of a
    script; when the script ends the promise is returned as it stands. *)
Fixpoint answer {A : Type} (replies : list Reply) (promise : Promise A)
  : Promise A :=
  match replies with
  | [] => promise
  | reply :: rest =>
      match promise with
      | Await _ _ _ k => answer rest (k reply)
      | _ => promise
      end
  end.

(** The variable values [fetchNextPage] sends for a model:
    [Object.assign({}, node.variableValues, options)], or [undefined] when
    the model has none and no options are given. *)
Definition nextPageVariableValues (node : GraphModel)
    (options : option Object) : option Object :=
  if truthy (Model.variableValues node) || present options
  then Some (assign (assign ∅ (Model.variableValues node)) (optional options))
  else None.

(** The node [fetchNextPage] asks for the next page: the last element of an
    array, the argument itself otherwise. *)
Definition pageNode (nodeOrNodes : Value) : Value :=
  match nodeOrNodes with
  | VArr items => default VUndefined (last items)
  | _ => nodeOrNodes
  end.

Section Paging.

Variable decode :
  option Ast.Operation → Value → ClassRegistry → option Object → Completion Value.
Variable this : Client.
Variable pageSize : Value.

(** [serves node response page]: [response] answers the next page query of
    [node] with the models [page], found in the decoded data along the path
    of the query. *)
Definition serves (node : GraphModel) (response : Object) (page : list Value)
  : Prop :=
  ∃ query path model,
    Model.nextPageQueryAndPath node = Some (query, path)
    ∧ truthy (get response "data") = true
    ∧ decode (Some query) (get response "data") (classRegistry this)
             (nextPageVariableValues node (Some {[ "first" := pageSize ]}))
      = Return model
    ∧ reducePath path model = Return (VArr page).

(** [paged items responses result]: starting from [items], the responses
    serve one page after the other, each for the last model of the list so
    far, until a list is reached whose last model has no next page. *)
Inductive paged : list Value → list Object → list Value → Prop :=
| paged_done (items : list Value) (more : Value) :
    hasNextPage (Some items) = Return more →
    truthy more = false →
    paged items [] items
| paged_more (items : list Value) (node : GraphModel) (response : Object)
    (page : list Value) (responses : list Object) (result : list Value) :
    last items = Some (VModel node) →
    truthy (Model.hasNextPage node) = true →
    serves node response page →
    paged (items ++ page) responses result →
    paged items (response :: responses) result.

End Paging.

(** ** More test doubles *)

Module Scenario.

(** The first call of the transport a method makes, taken apart. *)
Definition paramsOf {A : Type} (c : Completion (Promise A)) : Object :=
  match c with
  | Return (Await _ graphQLParams _ _) => graphQLParams
  | _ => ∅
  end.

Definition thenOf {A : Type} (c : Completion (Promise A))
  : Reply → Promise A :=
  match c with
  | Return (Await _ _ _ k) => k
  | _ => λ _, Pending
  end.

Definition promiseOf {A : Type} (c : Completion (Promise A)) : Promise A :=
  match c with
  | Return promise => promise
  | Throw _ => Pending
  end.

Definition oneQuery : Ast.Document :=
  {| Ast.operations := [Fixture.shopQuery] |}.

(** A response with partial data and errors. *)
Definition partial : Object :=
  {[ "data" := VObj {[ "shop" := VNull ]};
     "errors" := VArr [VObj {[ "message" := VStr "shop is closed" ]}] ]}.

(** A response that carries errors only. *)
Definition errorsOnly : Object :=
  {[ "errors" := VArr [VObj {[ "message" := VStr "not found" ]}] ]}.

(** A variant decoded from a query that was sent with variables. *)
Definition variant : GraphModel :=
  mkGraphModel {[ "id" := VStr "gid://shopify/ProductVariant/7" ]}
    Fixture.productType (VBool true)
    (VObj {[ "first" := VNum 10; "id" := VStr "gid://shopify/Product/1" ]})
    (Some (Fixture.nodeQuery, ["node"; "variants"])) Fixture.nodeQuery.

(** A page without nodes, and one whose data lacks the connection. *)
Definition emptyPage : Object :=
  {[ "data" := VObj {[ "node" := VObj {[ "products" := VArr [] ]} ]} ]}.

Definition holePage : Object :=
  {[ "data" := VObj {[ "node" := VObj ∅ ]} ]}.

Definition pageOptions : Object := {[ "pageSize" := VNum 20 ]}.

(** The request for the next page of [Fixture.product] alone. *)
Definition nextPage : Completion (Promise Object) :=
  fetchNextPage Fixture.render Fixture.decodeData Fixture.client
    (VModel Fixture.product) None.

(** All pages after [Fixture.product], with room for one more page. *)
Definition allPages : Completion (Promise (option (list Value))) :=
  fetchAllPages Fixture.render Fixture.decodeData 1 Fixture.client
    (Some [VModel Fixture.product]) pageOptions.

(** [shopQuery] sent with a variable and another [query] to override it. *)
Definition sent : Completion (Promise Object) :=
  send Fixture.render Fixture.decodeData Fixture.client
    (RequestValue (Ast.IsOperation Fixture.shopQuery))
    (Some {[ "id" := VStr "1" ]}) (Some {[ "query" := VStr "{ shop { id } }" ]})
    None VNull.

End Scenario.

(** * Properties of the tracker *)

Module TrackerFacts.
Import Tracker.

Lemma elem_of_trackedTypes (s : State) (x : string) :
  x ∈ trackedTypes s ↔ x ∈ observed s.
Proof.
  unfold trackedTypes.
  rewrite (merge_sort_Permutation String.le (remove_dups (observed s))).
  apply elem_of_remove_dups.
Qed.

Lemma NoDup_trackedTypes (s : State) : NoDup (trackedTypes s).
Proof.
  unfold trackedTypes.
  rewrite (merge_sort_Permutation String.le (remove_dups (observed s))).
  apply NoDup_remove_dups.
Qed.

Lemma le_sorted_trackedTypes (s : State) :
  StronglySorted String.le (trackedTypes s).
Proof. apply (StronglySorted_merge_sort String.le). Qed.

(** A sorted sequence without repetition is strictly increasing. *)
Lemma strict_of_NoDup (l : list string) :
  StronglySorted String.le l → NoDup l → StronglySorted (strict String.le) l.
Proof.
  induction 1 as [|x l Hl IH Hx]; intros Hnd; [constructor|].
  apply NoDup_cons in Hnd as [Hnotin Hnd].
  constructor; [by apply IH|].
  apply Forall_forall. intros y Hy.
  split; [by eapply Forall_forall in Hx|].
  intros Hyx. apply Hnotin.
  assert (x = y) as -> by (apply (anti_symm String.le); [by eapply Forall_forall in Hx|done]).
  done.
Qed.

Lemma NoDup_of_strict (l : list string) :
  StronglySorted (strict String.le) l → NoDup l.
Proof.
  induction 1 as [|x l Hl IH Hx]; [constructor|].
  apply NoDup_cons. split; [|done].
  intros Hin. eapply Forall_forall in Hx; [|done].
  destruct Hx as [? Hn]. by apply Hn.
Qed.

Lemma le_of_strict (l : list string) :
  StronglySorted (strict String.le) l → StronglySorted String.le l.
Proof.
  induction 1 as [|x l Hl IH Hx]; constructor; [done|].
  eapply Forall_impl; [done|]. by intros y [? ?].
Qed.

Lemma strict_sorted_trackedTypes (s : State) :
  StronglySorted (strict String.le) (trackedTypes s).
Proof.
  apply strict_of_NoDup;
    [apply le_sorted_trackedTypes | apply NoDup_trackedTypes].
Qed.

(** The output is determined by the set of observed names. *)
Lemma trackedTypes_unique (s : State) (l : list string) :
  StronglySorted (strict String.le) l →
  (∀ x, x ∈ l ↔ x ∈ observed s) →
  trackedTypes s = l.
Proof.
  intros Hl Hmem.
  apply (StronglySorted_unique String.le).
  - apply le_sorted_trackedTypes.
  - by apply le_of_strict.
  - apply NoDup_Permutation.
    + apply NoDup_trackedTypes.
    + by apply NoDup_of_strict.
    + intros x. rewrite elem_of_trackedTypes. by rewrite Hmem.
Qed.

Lemma recording_build (typeNames : list string) (s : State) :
  recording (build typeNames s) = recording s.
Proof.
  revert s. induction typeNames as [|n rest IH]; intros s; [done|].
  simpl. rewrite IH. unfold trackTypeDependency.
  by destruct (recording s) eqn:E.
Qed.

Lemma build_paused (typeNames : list string) (s : State) :
  recording s = false → build typeNames s = s.
Proof.
  intros Hoff. induction typeNames as [|n rest IH]; [done|].
  simpl. unfold trackTypeDependency. by rewrite Hoff.
Qed.

Lemma observed_build (typeNames : list string) (s : State) :
  recording s = true →
  observed (build typeNames s) = reverse typeNames ++ observed s.
Proof.
  revert s. induction typeNames as [|n rest IH]; intros s Hon; [done|].
  simpl. unfold trackTypeDependency at 1. rewrite Hon.
  rewrite IH by done. simpl.
  by rewrite reverse_cons, <- app_assoc.
Qed.

Lemma elem_of_build (typeNames : list string) (s : State) (x : string) :
  recording s = true →
  x ∈ trackedTypes (build typeNames s) ↔ x ∈ typeNames ∨ x ∈ trackedTypes s.
Proof.
  intros Hon. rewrite !elem_of_trackedTypes, observed_build by done.
  rewrite elem_of_app, elem_of_reverse. done.
Qed.


Lemma run_app (steps later : list Step) (s : State) :
  run (steps ++ later) s = run later (run steps s).
Proof. revert s. induction steps as [|st rest IH]; intros s; [done|]. apply IH. Qed.

Lemma run_queries_paused (queries : list (list string)) (s : State) :
  recording s = false → run (NewQuery <$> queries) s = s.
Proof.
  intros Hoff. induction queries as [|q rest IH]; [done|].
  simpl. by rewrite build_paused.
Qed.

Lemma run_queries_recording (queries : list (list string)) (s : State) :
  recording s = true →
  recording (run (NewQuery <$> queries) s) = true
  ∧ ∀ x, x ∈ trackedTypes (run (NewQuery <$> queries) s)
         ↔ (∃ q, q ∈ queries ∧ x ∈ q) ∨ x ∈ trackedTypes s.
Proof.
  revert s. induction queries as [|q rest IH]; intros s Hon.
  - split; [done|]. intros x. split; [by right|].
    intros [(q & Hq & _)|?]; [by apply elem_of_nil in Hq|done].
  - simpl. destruct (IH (build q s)) as [Hrec Hmem];
      [by rewrite recording_build|].
    split; [done|]. intros x. rewrite Hmem, elem_of_build by done.
    split.
    + intros [(q' & Hq' & Hx)|[Hx|Hx]].
      * left. exists q'. split; [by apply elem_of_cons; right|done].
      * left. exists q. split; [by apply elem_of_cons; left|done].
      * by right.
    + intros [(q' & Hq' & Hx)|Hx]; [|by right; right].
      apply elem_of_cons in Hq' as [->|Hq']; [by right; left|].
      left. by exists q'.
Qed.

(** Without a call of [startTracking] the pristine tracker stays pristine. *)
Lemma run_pristine (later : list Step) :
  Forall (λ st, st ≠ StartTracking) later → run later pristine = pristine.
Proof.
  induction 1 as [|st rest Hst _ IH]; [done|].
  simpl. destruct st; simpl; try done.
  by rewrite build_paused.
Qed.

(** Whatever a build reports while tracking is enabled, in whatever order
    and however often, [trackedTypes()] is strictly increasing in the
    lexicographic order (so it is sorted and has no duplicate), it holds
    exactly the names reported and those accumulated before, and a build
    that reports the same names in another order gives the same sequence.
    Which types the nested shop, products, variants query of the test
    reports is decided by the selection set builder and the schema fixture,
    neither of which is among the sources: nothing is stated about it. *)
Theorem trackedTypes_sorted_dedup (s : State) (typeNames : list string) :
  StronglySorted (strict String.le)
    (trackedTypes (build typeNames (startTracking s)))
  ∧ (∀ x, x ∈ trackedTypes (build typeNames (startTracking s))
          ↔ x ∈ typeNames ∨ x ∈ trackedTypes s)
  ∧ (∀ reordered, reordered ≡ₚ typeNames →
       trackedTypes (build reordered (startTracking s))
       = trackedTypes (build typeNames (startTracking s))).
Proof.
  split; [apply strict_sorted_trackedTypes|].
  split; [intros x; by rewrite elem_of_build, !elem_of_trackedTypes|].
  intros reordered Hperm. apply trackedTypes_unique.
  - apply strict_sorted_trackedTypes.
  - intros x. rewrite <- !elem_of_trackedTypes, !elem_of_build by done.
    by rewrite Hperm.
Qed.

Lemma trackedTypes_sorted_dedup_witness :
  trackedTypes (build (reverse nestedQueryTrace) (startTracking pristine))
  = trackedTypes (build nestedQueryTrace (startTracking pristine)).
Proof.
  destruct (trackedTypes_sorted_dedup pristine nestedQueryTrace)
    as (_ & _ & Hperm).
  apply Hperm, reverse_Permutation.
Defined.

(** The list the test expects is written in the order of the output: it is
    strictly increasing. *)
Example nestedQueryTypes_increasing :
  StronglySorted (strict String.le) nestedQueryTypes.
Proof. apply strict_of_NoDup; compute_done. Qed.

(** C5.  After any sequence of tracker calls and builds, [resetTracker()]
    leaves [trackedTypes()] empty and recording disabled, and whatever is
    built or called afterwards, short of [startTracking()], records
    nothing. *)
Theorem resetTracker_clears_and_disables
    (steps later : list Step) (s : State) :
  Forall (λ st, st ≠ StartTracking) later →
  trackedTypes (resetTracker (run steps s)) = []
  ∧ recording (resetTracker (run steps s)) = false
  ∧ trackedTypes (run later (resetTracker (run steps s))) = [].
Proof.
  intros Hlater. unfold resetTracker.
  split; [done|]. split; [done|].
  by rewrite run_pristine.
Qed.

Lemma resetTracker_clears_and_disables_witness :
  trackedTypes (resetTracker
    (run [StartTracking; NewQuery ["QueryRoot"; "Shop"; "Shop"; "String"]]
         pristine)) = []
  ∧ recording (resetTracker
    (run [StartTracking; NewQuery ["QueryRoot"; "Shop"; "Shop"; "String"]]
         pristine)) = false
  ∧ trackedTypes (run [NewQuery ["QueryRoot"; "Shop"; "Shop"; "String"];
                       PauseTracking]
    (resetTracker
      (run [StartTracking; NewQuery ["QueryRoot"; "Shop"; "Shop"; "String"]]
           pristine))) = [].
Proof.
  apply (resetTracker_clears_and_disables
    [StartTracking; NewQuery ["QueryRoot"; "Shop"; "Shop"; "String"]]
    [NewQuery ["QueryRoot"; "Shop"; "Shop"; "String"]; PauseTracking]
    pristine).
  repeat constructor; discriminate.
Defined.

(** C6.  From any accumulated state, queries built after [pauseTracking()]
    leave [trackedTypes()] as it was before the pause; after a later
    [startTracking()] the types of the queries built then are added to the
    same accumulated set: the result holds exactly the types recorded
    before the pause and those reported after resumption. *)
Theorem pauseTracking_freezes_then_resumes
    (s : State) (whilePaused afterResume : list (list string)) :
  trackedTypes (run (NewQuery <$> whilePaused) (pauseTracking s))
  = trackedTypes s
  ∧ ∀ x,
      x ∈ trackedTypes
            (run (NewQuery <$> afterResume)
               (startTracking
                  (run (NewQuery <$> whilePaused) (pauseTracking s))))
      ↔ (∃ q, q ∈ afterResume ∧ x ∈ q) ∨ x ∈ trackedTypes s.
Proof.
  rewrite run_queries_paused by done.
  split; [done|]. intros x.
  destruct (run_queries_recording afterResume
              (startTracking (pauseTracking s))) as [_ Hmem]; [done|].
  rewrite Hmem. by rewrite !elem_of_trackedTypes.
Qed.

(** The test of the suite: shop is built, then the nested query while
    paused, then a node query after resumption. *)
Example pause_test :
  trackedTypes
    (run [ StartTracking; NewQuery ["QueryRoot"; "Shop"; "Shop"; "String"];
           PauseTracking; NewQuery nestedQueryTrace;
           StartTracking; NewQuery ["QueryRoot"; "Node"; "Node"; "ID"] ]
         (resetTracker pristine))
  = ["ID"; "Node"; "QueryRoot"; "Shop"; "String"].
Proof. vm_compute. reflexivity. Qed.

Example print_test :
  printTypes
    (run [ StartTracking; NewQuery ["QueryRoot"; "Shop"; "Shop"; "String"] ]
         (resetTracker pristine))
  = "QueryRoot,Shop,String".
Proof. vm_compute. reflexivity. Qed.

End TrackerFacts.

(** * Properties of the client *)

Section ClientFacts.

Variable toString : Ast.OperationOrDocument → Value → string.
Variable decode :
  option Ast.Operation → Value → ClassRegistry → option Object → Completion Value.

(** [send] throws exactly when the choice of the operation throws, and
    otherwise calls the transport once, straight away. *)
Lemma send_inv (this : Client) (request : Request)
    (variableValues otherProperties headers : option Object)
    (inContextDirective : Value) :
  let operationOrDocument :=
    match request with
    | RequestFunction f => f this
    | RequestValue r => r
    end in
  match selectOperation operationOrDocument otherProperties with
  | Throw e =>
      send toString decode this request variableValues otherProperties headers
           inContextDirective = Throw e
  | Return operation =>
      ∃ graphQLParams,
        send toString decode this request variableValues otherProperties
             headers inContextDirective
        = Return (then_ (call (fetcher this) graphQLParams headers)
                        (onResponse decode this operation variableValues))
        ∧ get graphQLParams "query"
          = default (VStr (toString operationOrDocument inContextDirective))
                    (otherProperties ≫= (.!! "query"))
        ∧ ∀ properties key,
            otherProperties = Some properties → is_Some (properties !! key) →
            get graphQLParams key = get properties key
  end.
Proof.
  intros operationOrDocument. unfold send. fold operationOrDocument.
  destruct (selectOperation operationOrDocument otherProperties)
    as [operation|e]; [|done].
  eexists. split; [reflexivity|].
  set (base := match variableValues with
               | Some values => _
               | None => _
               end).
  assert (base !! "query"
          = Some (VStr (toString operationOrDocument inContextDirective)))
    as Hquery.
  { subst base. destruct variableValues;
      [rewrite lookup_insert_ne by done|]; apply lookup_singleton_eq. }
  unfold assign, get. split.
  - destruct otherProperties as [properties|]; simpl.
    + rewrite lookup_union, Hquery. by destruct (properties !! "query").
    + by rewrite (left_id_L ∅ (∪)), Hquery.
  - intros properties key -> [v Hv]. simpl.
    rewrite lookup_union, Hv. by destruct (base !! key).
Qed.


(** The transport call of a [send] that does not throw. *)
Lemma send_returns (this : Client) (request : Request)
    (variableValues otherProperties headers : option Object)
    (inContextDirective : Value) (operation : option Ast.Operation) :
  selectOperation
    match request with
    | RequestFunction f => f this
    | RequestValue r => r
    end otherProperties = Return operation →
  ∃ graphQLParams k,
    send toString decode this request variableValues otherProperties headers
         inContextDirective
    = Return (Await (fetcher this) graphQLParams headers k)
    ∧ (∀ response,
         k (Fulfilled response)
         = onResponse decode this operation variableValues response)
    ∧ (∀ reason, k (Failed reason) = Rejected reason)
    ∧ get graphQLParams "query"
      = default (VStr (toString match request with
                                | RequestFunction f => f this
                                | RequestValue r => r
                                end inContextDirective))
                (otherProperties ≫= (.!! "query"))
    ∧ ∀ properties key,
        otherProperties = Some properties → is_Some (properties !! key) →
        get graphQLParams key = get properties key.
Proof.
  intros Hselect.
  pose proof (send_inv this request variableValues otherProperties headers
                inContextDirective) as Hsend.
  cbv beta zeta iota in Hsend. rewrite Hselect in Hsend.
  destruct Hsend as (graphQLParams & -> & Hquery & Hother).
  exists graphQLParams. eexists. split; [reflexivity|]. by repeat split.
Qed.

Lemma selectOperation_document (document : Ast.Document)
    (otherProperties : option Object) :
  length (Ast.operations document) ≠ 1 →
  selectOperation (Ast.IsDocument document) otherProperties
  = match otherProperties with
    | None => Throw TypeError
    | Some properties =>
        if truthy (get properties "operationName")
        then Return (find (λ documentOperation,
                             strictEquals (Ast.name documentOperation)
                                          (get properties "operationName"))
                          (Ast.operations document))
        else Throw (JsError ambiguousOperationMessage)
    end.
Proof.
  intros Hlength. unfold selectOperation.
  by destruct (Ast.operations document) as [|first [|second rest]].
Qed.

Lemma find_no_match {A : Type} (f : A → bool) (l : list A) :
  Forall (λ x, f x = false) l → find f l = None.
Proof. induction 1 as [|x l Hx _ IH]; [done|]. simpl. by rewrite Hx. Qed.

Lemma send_refuses_ambiguous (this : Client) (document : Ast.Document)
    (variableValues headers : option Object) (properties : Object)
    (inContextDirective : Value) :
  length (Ast.operations document) ≠ 1 →
  truthy (get properties "operationName") = false →
  send toString decode this (RequestValue (Ast.IsDocument document))
       variableValues (Some properties) headers inContextDirective
  = Throw (JsError ambiguousOperationMessage).
Proof.
  intros Hlength Hname.
  pose proof (send_inv this (RequestValue (Ast.IsDocument document))
                variableValues (Some properties) headers inContextDirective)
    as Hsend.
  cbv beta zeta iota in Hsend. rewrite selectOperation_document in Hsend by done.
  by rewrite Hname in Hsend.
Qed.

(** When the other properties are left out (they default to [null]), reading
    [otherProperties.operationName] raises a [TypeError] instead. *)
Lemma send_document_without_properties (this : Client)
    (document : Ast.Document) (variableValues headers : option Object)
    (inContextDirective : Value) :
  length (Ast.operations document) ≠ 1 →
  send toString decode this (RequestValue (Ast.IsDocument document))
       variableValues None headers inContextDirective
  = Throw TypeError.
Proof.
  intros Hlength.
  pose proof (send_inv this (RequestValue (Ast.IsDocument document))
                variableValues None headers inContextDirective) as Hsend.
  cbv beta zeta iota in Hsend. by rewrite selectOperation_document in Hsend.
Qed.

(** C1.  [client.send(document)] for the document of two named queries,
    nothing else being passed: the call throws before the transport is
    called, but what is thrown is the [TypeError] of reading a property of
    [null], and not the descriptive error. *)
Theorem send_two_queries_without_properties (this : Client)
    (variableValues headers : option Object) (inContextDirective : Value) :
  send toString decode this
       (RequestValue (Ast.IsDocument Fixture.twoQueries))
       variableValues None headers inContextDirective
  = Throw TypeError
  ∧ send toString decode this
         (RequestValue (Ast.IsDocument Fixture.twoQueries))
         variableValues (Some ∅) headers inContextDirective
    = Throw (JsError ambiguousOperationMessage).
Proof.
  split.
  - by apply send_document_without_properties.
  - by apply send_refuses_ambiguous.
Qed.

(** With an object of other properties in which [operationName] is missing
    or falsy, a document that does not hold exactly one operation is refused
    with the descriptive error, and the transport is not called. *)
Theorem send_ambiguous_document (this : Client) (document : Ast.Document)
    (variableValues headers : option Object) (properties : Object)
    (inContextDirective : Value) :
  length (Ast.operations document) ≠ 1 →
  truthy (get properties "operationName") = false →
  send toString decode this (RequestValue (Ast.IsDocument document))
       variableValues (Some properties) headers inContextDirective
  = Throw (JsError ambiguousOperationMessage).
Proof. apply send_refuses_ambiguous. Qed.

(** C2.  A document of two or more operations sent with an [operationName]
    that is truthy and is the name of none of them: the lookup finds
    nothing, nothing is thrown, and the transport is called; the callback
    that will decode the response holds no operation. *)
Theorem send_unknown_operationName (this : Client) (document : Ast.Document)
    (variableValues headers : option Object) (properties : Object)
    (inContextDirective : Value) :
  (2 ≤ length (Ast.operations document))%nat →
  truthy (get properties "operationName") = true →
  Forall (λ operation,
            strictEquals (Ast.name operation)
                         (get properties "operationName") = false)
         (Ast.operations document) →
  selectOperation (Ast.IsDocument document) (Some properties) = Return None
  ∧ ∃ graphQLParams k,
      send toString decode this (RequestValue (Ast.IsDocument document))
           variableValues (Some properties) headers inContextDirective
      = Return (Await (fetcher this) graphQLParams headers k)
      ∧ get graphQLParams "operationName" = get properties "operationName"
      ∧ ∀ response,
          k (Fulfilled response)
          = onResponse decode this None variableValues response.
Proof.
  intros Hlength Hname Hnone.
  assert (selectOperation (Ast.IsDocument document) (Some properties)
          = Return None) as Hselect.
  { rewrite selectOperation_document by lia.
    by rewrite Hname, find_no_match. }
  split; [done|].
  destruct (send_returns this (RequestValue (Ast.IsDocument document))
              variableValues (Some properties) headers inContextDirective
              None Hselect)
    as (graphQLParams & k & Hsend & Hk & _ & _ & Hother).
  exists graphQLParams, k. split; [done|]. split; [|done].
  apply Hother; [done|].
  unfold get in Hname. by destruct (properties !! "operationName").
Qed.

(** C3.  Whatever [send] was given, if it returns a promise then that
    promise is a call of the transport, and for every response: without
    truthy [data] the response is resolved as it is, whatever [decode] would
    do; with truthy [data] the response is resolved with [model] set to what
    [decode] returns, and rejected only if [decode] throws. *)
Theorem send_model_iff_data (this : Client) (request : Request)
    (variableValues otherProperties headers : option Object)
    (inContextDirective : Value) (promise : Promise Object) :
  send toString decode this request variableValues otherProperties headers
       inContextDirective = Return promise →
  ∃ graphQLParams operation k,
    promise = Await (fetcher this) graphQLParams headers k
    ∧ ∀ response : Object,
        (truthy (get response "data") = false →
           k (Fulfilled response) = Resolved response)
        ∧ (truthy (get response "data") = true →
             ∀ model,
               decode operation (get response "data") (classRegistry this)
                      variableValues = Return model →
               k (Fulfilled response)
               = Resolved (<["model" := model]> response))
        ∧ (truthy (get response "data") = true →
             ∀ e,
               decode operation (get response "data") (classRegistry this)
                      variableValues = Throw e →
               k (Fulfilled response) = Rejected e).
Proof.
  intros Hsend.
  pose proof (send_inv this request variableValues otherProperties headers
                inContextDirective) as Hinv.
  cbv beta zeta iota in Hinv.
  destruct (selectOperation _ otherProperties) as [operation|e] eqn:Hselect;
    [|congruence].
  destruct (send_returns this request variableValues otherProperties headers
              inContextDirective operation Hselect)
    as (graphQLParams & k & Hsend' & Hk & _).
  rewrite Hsend' in Hsend. injection Hsend as <-.
  exists graphQLParams, operation, k. split; [done|].
  intros response. rewrite Hk. unfold onResponse.
  repeat split.
  - by intros ->.
  - by intros -> model ->.
  - by intros -> e ->.
Qed.


(** What [send] does with a single operation and nothing else, as
    [fetchNextPage] and [refetch] call it. *)
Lemma send_operation (this : Client) (operation : Ast.Operation)
    (variableValues : option Object) :
  ∃ graphQLParams k,
    send toString decode this (RequestValue (Ast.IsOperation operation))
         variableValues None None VNull
    = Return (Await (fetcher this) graphQLParams None k)
    ∧ graphQLParams
      = match variableValues with
        | Some values =>
            <["variables" := VObj values]>
              {[ "query" := VStr (toString (Ast.IsOperation operation) VNull) ]}
        | None =>
            {[ "query" := VStr (toString (Ast.IsOperation operation) VNull) ]}
        end
    ∧ (∀ response,
         k (Fulfilled response)
         = onResponse decode this (Some operation) variableValues response)
    ∧ (∀ reason, k (Failed reason) = Rejected reason).
Proof.
  unfold send, assign. simpl. rewrite (left_id_L ∅ (∪)).
  eexists _, _. split; [reflexivity|]. by repeat split.
Qed.

(** C7.  [refetch] of [null] or [undefined], and of a model whose type does
    not implement Node, throws its descriptive error and the transport is
    not called.  For a model whose type implements Node the transport is
    called with the text of the model's refetch query, and a response whose
    [data] decodes to a model resolves the promise with the [node] of that
    model.  The prior model is only read, for its type and its refetch
    query: two models that agree on both are refetched alike. *)
Theorem refetch_requires_node (this : Client) :
  refetch toString decode this None = Throw (JsError refetchNullMessage)
  ∧ (∀ node,
       Schema.implementsNode (Model.type node) = false →
       refetch toString decode this (Some node)
       = Throw (JsError (refetchTypeMessage (Schema.name (Model.type node)))))
  ∧ (∀ node,
       Schema.implementsNode (Model.type node) = true →
       ∃ k,
         refetch toString decode this (Some node)
         = Return (Await (fetcher this)
                     {[ "query" :=
                          VStr (toString
                                  (Ast.IsOperation (Model.refetchQuery node))
                                  VNull) ]}
                     None k)
         ∧ ∀ response model newNode,
             truthy (get response "data") = true →
             decode (Some (Model.refetchQuery node)) (get response "data")
                    (classRegistry this) None = Return model →
             getProp model "node" = Return newNode →
             k (Fulfilled response) = Resolved newNode)
  ∧ (∀ node node',
       Model.type node = Model.type node' →
       Model.refetchQuery node = Model.refetchQuery node' →
       refetch toString decode this (Some node)
       = refetch toString decode this (Some node')).
Proof.
  split; [done|]. split; [|split].
  - intros node Hnode. unfold refetch. by rewrite Hnode.
  - intros node Hnode. unfold refetch. rewrite Hnode. cbn [negb].
    destruct (send_operation this (Model.refetchQuery node) None)
      as (graphQLParams & k & -> & -> & Hk & _).
    simpl. eexists. split; [reflexivity|].
    intros response model newNode Hdata Hdecode Hprop. simpl.
    rewrite Hk. unfold onResponse. rewrite Hdata, Hdecode. simpl.
    unfold get at 1. rewrite lookup_insert_eq. simpl. by rewrite Hprop.
  - intros node node' Htype Hquery. unfold refetch.
    by rewrite Htype, Hquery.
Qed.

(** A response without [data] and without [model] leaves nothing to read
    [node] from: the promise of [refetch] is rejected with a [TypeError]. *)
Lemma refetch_without_data (this : Client) (node : GraphModel)
    (response : Object) :
  Schema.implementsNode (Model.type node) = true →
  truthy (get response "data") = false →
  response !! "model" = None →
  ∃ graphQLParams k,
    refetch toString decode this (Some node)
    = Return (Await (fetcher this) graphQLParams None k)
    ∧ k (Fulfilled response) = Rejected TypeError.
Proof.
  intros Hnode Hdata Hmodel. unfold refetch. rewrite Hnode. cbn [negb].
  destruct (send_operation this (Model.refetchQuery node) None)
    as (graphQLParams & k & -> & _ & Hk & _).
  simpl. eexists _, _. split; [reflexivity|]. simpl.
  rewrite Hk. unfold onResponse. rewrite Hdata. simpl.
  unfold get. by rewrite Hmodel.
Qed.

Lemma last_snoc_value (models : list Value) (node : Value) :
  last (models ++ [node]) = Some node.
Proof. apply last_snoc. Qed.

(** C9.  Of an array that ends in a model, [hasNextPage] reads the last
    model only, and [fetchNextPage] does what it does on that last model,
    the next page query of that model being the one sent; [fetchAllPages]
    resolves at once with the list it was given, without a call of the
    transport, when the list is empty and when its last model has no next
    page. *)
Theorem pagination_reads_last_model (this : Client) (models : list Value)
    (node : GraphModel) (options : option Object) (fuel : nat)
    (pageOptions : Object) :
  hasNextPage (Some (models ++ [VModel node]))
  = Return (Model.hasNextPage node)
  ∧ fetchNextPage toString decode this (VArr (models ++ [VModel node])) options
  = fetchNextPage toString decode this (VModel node) options
  ∧ (∀ query path,
       Model.nextPageQueryAndPath node = Some (query, path) →
       ∃ graphQLParams k,
         fetchNextPage toString decode this (VArr (models ++ [VModel node]))
                       options
         = Return (Await (fetcher this) graphQLParams None k)
         ∧ get graphQLParams "query"
           = VStr (toString (Ast.IsOperation query) VNull))
  ∧ fetchAllPages toString decode fuel this (Some []) pageOptions
    = Return (Resolved (Some []))
  ∧ (truthy (Model.hasNextPage node) = false →
       fetchAllPages toString decode fuel this
                     (Some (models ++ [VModel node])) pageOptions
       = Return (Resolved (Some (models ++ [VModel node])))).
Proof.
  assert (hasNextPage (Some (models ++ [VModel node]))
          = Return (Model.hasNextPage node)) as Hmore.
  { unfold hasNextPage. by rewrite last_snoc_value. }
  split; [done|]. split; [|split; [|split]].
  - unfold fetchNextPage. by rewrite last_snoc_value.
  - intros query path Hnext. unfold fetchNextPage.
    rewrite last_snoc_value. simpl. rewrite Hnext. simpl.
    eexists _, _. split; [reflexivity|].
    unfold get, assign at 1. simpl. rewrite (left_id_L ∅ (∪)).
    destruct (_ || _); [rewrite lookup_insert_ne by done|];
      by rewrite lookup_singleton_eq.
  - by destruct fuel.
  - intros Hlast.
    destruct fuel; cbn [fetchAllPages]; rewrite Hmore;
      cbn [mbind Completion_bind]; by rewrite Hlast.
Qed.

(** C10.  The constructor throws unless exactly one of [url] and [fetcher]
    is supplied (truthy), and throws when [fetcherOptions] comes with a
    [fetcher]; otherwise it returns a client, whose fetcher is the HTTP
    fetcher of the url or the function supplied. *)
Theorem constructor_requires_one_transport
    (typeBundle : Schema.TypeBundle) (options : Options.t) :
  (xorb (present (nonEmpty (Options.url options)))
        (present (Options.fetcher options)) = false →
     ∃ message, constructor typeBundle options = Throw (JsError message))
  ∧ (present (Options.fetcher options) = true →
     present (Options.fetcherOptions options) = true →
     ∃ message, constructor typeBundle options = Throw (JsError message))
  ∧ (xorb (present (nonEmpty (Options.url options)))
          (present (Options.fetcher options)) = true →
     present (Options.fetcher options)
       && present (Options.fetcherOptions options) = false →
     ∃ client, constructor typeBundle options = Return client)
  ∧ (∀ client,
       constructor typeBundle options = Return client →
       (∃ url, nonEmpty (Options.url options) = Some url
               ∧ Options.fetcher options = None
               ∧ fetcher client
                 = httpFetcher url (Options.fetcherOptions options))
       ∨ (nonEmpty (Options.url options) = None
          ∧ Options.fetcherOptions options = None
          ∧ Options.fetcher options = Some (fetcher client))).
Proof.
  unfold constructor.
  destruct (nonEmpty (Options.url options)) as [url|],
           (Options.fetcher options) as [custom|],
           (Options.fetcherOptions options) as [fetcherOptions|];
    simpl; repeat split; intros; simplify_eq/=; eauto 6.
Qed.

End ClientFacts.

(** ** The theorems at the test doubles *)

Lemma send_unknown_operationName_witness :
  selectOperation (Ast.IsDocument Fixture.twoQueries)
                  (Some {[ "operationName" := VStr "cartQuery" ]})
  = Return None
  ∧ ∃ graphQLParams k,
      send Fixture.render Fixture.decodeData Fixture.client
           (RequestValue (Ast.IsDocument Fixture.twoQueries)) None
           (Some {[ "operationName" := VStr "cartQuery" ]}) None VNull
      = Return (Await (fetcher Fixture.client) graphQLParams None k)
      ∧ get graphQLParams "operationName"
        = get {[ "operationName" := VStr "cartQuery" ]} "operationName"
      ∧ ∀ response,
          k (Fulfilled response)
          = onResponse Fixture.decodeData Fixture.client None None response.
Proof.
  apply (send_unknown_operationName Fixture.render Fixture.decodeData
           Fixture.client Fixture.twoQueries None None
           {[ "operationName" := VStr "cartQuery" ]} VNull).
  - simpl. lia.
  - vm_compute. reflexivity.
  - repeat constructor.
Defined.

Lemma send_model_iff_data_witness :
  ∃ graphQLParams operation k,
    Fixture.shopPromise
    = Await (fetcher Fixture.client) graphQLParams None k
    ∧ ∀ response : Object,
        (truthy (get response "data") = false →
           k (Fulfilled response) = Resolved response)
        ∧ (truthy (get response "data") = true →
             ∀ model,
               Fixture.decodeThrows operation (get response "data")
                 (classRegistry Fixture.client) None = Return model →
               k (Fulfilled response)
               = Resolved (<["model" := model]> response))
        ∧ (truthy (get response "data") = true →
             ∀ e,
               Fixture.decodeThrows operation (get response "data")
                 (classRegistry Fixture.client) None = Throw e →
               k (Fulfilled response) = Rejected e).
Proof.
  apply (send_model_iff_data Fixture.render Fixture.decodeThrows
           Fixture.client (RequestValue (Ast.IsOperation Fixture.shopQuery))
           None None None VNull Fixture.shopPromise).
  vm_compute. reflexivity.
Defined.

Lemma refetch_requires_node_witness :
  refetch Fixture.render Fixture.decodeData Fixture.client (Some Fixture.shop)
  = Throw (JsError "'client#refetch' must be called with a type that implements Node. Received Shop.")
  ∧ ∃ k,
      refetch Fixture.render Fixture.decodeData Fixture.client
              (Some Fixture.product)
      = Return (Await (customFetcher "mock") {[ "query" := VStr "nodeQuery" ]}
                      None k)
      ∧ k (Fulfilled Fixture.nodeResponse)
        = Resolved (VObj {[ "id" := VStr "gid://shopify/Product/1" ]}).
Proof.
  destruct (refetch_requires_node Fixture.render Fixture.decodeData
              Fixture.client) as (_ & Hother & Hnode & _).
  split.
  - apply (Hother Fixture.shop). reflexivity.
  - destruct (Hnode Fixture.product eq_refl) as (k & Hrefetch & Hresolve).
    exists k. split; [exact Hrefetch|].
    apply (Hresolve Fixture.nodeResponse
             (get Fixture.nodeResponse "data")).
    + vm_compute. reflexivity.
    + reflexivity.
    + vm_compute. reflexivity.
Defined.

Lemma pagination_reads_last_model_witness :
  fetchNextPage Fixture.render Fixture.decodeData Fixture.client
    (VArr [VModel Fixture.lastProduct; VModel Fixture.product]) None
  = fetchNextPage Fixture.render Fixture.decodeData Fixture.client
      (VModel Fixture.product) None
  ∧ (∃ graphQLParams k,
       fetchNextPage Fixture.render Fixture.decodeData Fixture.client
         (VArr [VModel Fixture.lastProduct; VModel Fixture.product]) None
       = Return (Await (fetcher Fixture.client) graphQLParams None k)
       ∧ get graphQLParams "query" = VStr "nodeQuery")
  ∧ fetchAllPages Fixture.render Fixture.decodeData 3 Fixture.client
      (Some [VModel Fixture.product; VModel Fixture.lastProduct])
      {[ "pageSize" := VNum 20 ]}
    = Return (Resolved
                (Some [VModel Fixture.product; VModel Fixture.lastProduct])).
Proof.
  destruct (pagination_reads_last_model Fixture.render Fixture.decodeData
              Fixture.client [VModel Fixture.lastProduct] Fixture.product
              None 3 {[ "pageSize" := VNum 20 ]})
    as (_ & Hlast & Hquery & _ & _).
  destruct (pagination_reads_last_model Fixture.render Fixture.decodeData
              Fixture.client [VModel Fixture.product] Fixture.lastProduct
              None 3 {[ "pageSize" := VNum 20 ]})
    as (_ & _ & _ & _ & Hdone).
  split; [exact Hlast|]. split.
  - exact (Hquery Fixture.nodeQuery ["node"; "products"] eq_refl).
  - apply Hdone. reflexivity.
Defined.

Lemma constructor_requires_one_transport_witness :
  (∃ message,
     constructor ∅ {| Options.url := Some "https://shop.example/graphql";
                      Options.fetcherOptions := None;
                      Options.fetcher := Some (customFetcher "mock");
                      Options.registry := None |}
     = Throw (JsError message))
  ∧ (∃ client,
       constructor ∅ {| Options.url := Some "https://shop.example/graphql";
                        Options.fetcherOptions := Some ∅;
                        Options.fetcher := None;
                        Options.registry := None |}
       = Return client).
Proof.
  split.
  - destruct (constructor_requires_one_transport ∅
                {| Options.url := Some "https://shop.example/graphql";
                   Options.fetcherOptions := None;
                   Options.fetcher := Some (customFetcher "mock");
                   Options.registry := None |}) as (Hboth & _).
    apply Hboth. reflexivity.
  - destruct (constructor_requires_one_transport ∅
                {| Options.url := Some "https://shop.example/graphql";
                   Options.fetcherOptions := Some ∅;
                   Options.fetcher := None;
                   Options.registry := None |}) as (_ & _ & Hone & _).
    apply Hone; reflexivity.
Defined.

Lemma send_ambiguous_document_witness :
  send Fixture.render Fixture.decodeData Fixture.client
       (RequestValue (Ast.IsDocument Fixture.twoQueries)) None
       (Some {[ "operationName" := VStr "" ]}) None VNull
  = Throw (JsError ambiguousOperationMessage).
Proof.
  apply (send_ambiguous_document Fixture.render Fixture.decodeData
           Fixture.client Fixture.twoQueries None None
           {[ "operationName" := VStr "" ]} VNull).
  - simpl. lia.
  - vm_compute. reflexivity.
Defined.

(** [fetchAllPages] on a list whose last model has a next page: one call of
    the transport, asking for [pageSize] nodes, and the nodes of the page it
    answers are appended; the new last model has no next page, so the chain
    ends there. *)
Example fetchAllPages_two_pages :
  ∃ graphQLParams k,
    fetchAllPages Fixture.render Fixture.decodeData 1 Fixture.client
      (Some [VModel Fixture.product]) {[ "pageSize" := VNum 20 ]}
    = Return (Await (fetcher Fixture.client) graphQLParams None k)
    ∧ get graphQLParams "variables" = VObj {[ "first" := VNum 20 ]}
    ∧ k (Fulfilled Fixture.secondPage)
      = Resolved (Some [VModel Fixture.product; VModel Fixture.lastProduct])
    ∧ k (Failed (Failure (VStr "offline")))
      = Rejected (Failure (VStr "offline")).
Proof.
  eexists _, _. split; [reflexivity|].
  split; [vm_compute; reflexivity|].
  split; vm_compute; reflexivity.
Qed.

(** * Further properties of the client *)

Lemma resolves_inv {A : Type} (promise : Promise A) (a : A) :
  resolves promise a →
  match promise with
  | Resolved a' => a' = a
  | Await _ _ _ k => ∃ reply, resolves (k reply) a
  | Rejected _ | Pending => False
  end.
Proof. destruct 1; eauto. Qed.

Lemma resolves_answer {A : Type} (replies : list Reply)
    (promise : Promise A) (a : A) :
  answer replies promise = Resolved a → resolves promise a.
Proof.
  revert promise. induction replies as [|reply replies IH]; intros promise.
  - simpl. intros ->. constructor.
  - destruct promise as [a'|e| |f params headers k]; simpl;
      try (intros [= ->]; constructor); try done.
    intros Hk. econstructor. by apply IH.
Qed.

Lemma resolves_then {A B : Type} (promise : Promise A)
    (onFulfilled : A → Promise B) (b : B) :
  resolves (then_ promise onFulfilled) b
  ↔ ∃ a, resolves promise a ∧ resolves (onFulfilled a) b.
Proof.
  split.
  - induction promise as [a|e| |f params headers k IH]; simpl; intros Hb.
    + exists a. split; [constructor|done].
    + by apply resolves_inv in Hb.
    + by apply resolves_inv in Hb.
    + apply resolves_inv in Hb as [reply Hk].
      destruct (IH reply Hk) as (a & Ha & Hcb).
      exists a. split; [by econstructor|done].
  - intros (a & Ha & Hcb). induction Ha as [a|f params headers k reply a _ IH];
      simpl; [done|].
    econstructor. by apply IH.
Qed.

Lemma everyCall_then {A B : Type}
    (P : Fetcher → Object → option Object → Prop) (promise : Promise A)
    (onFulfilled : A → Promise B) :
  everyCall P promise →
  (∀ a, resolves promise a → everyCall P (onFulfilled a)) →
  everyCall P (then_ promise onFulfilled).
Proof.
  induction promise as [a|e| |f params headers k IH]; simpl; try done.
  - intros _ Hcb. apply Hcb. constructor.
  - intros [Hcall Hk] Hcb. split; [done|]. intros reply.
    apply IH; [done|]. intros a Ha. apply Hcb. by econstructor.
Qed.

Lemma reducePath_throw (path : list string) (e : Exn) :
  foldl (λ object key, object ≫= λ o, getProp o key) (Throw e) path = Throw e.
Proof. by induction path. Qed.

Lemma reducePath_cons (key : string) (path : list string) (model : Value) :
  reducePath (key :: path) model = getProp model key ≫= reducePath path.
Proof.
  unfold reducePath. simpl.
  destruct (getProp model key) as [v|e]; simpl; [done|].
  apply reducePath_throw.
Qed.

Lemma reducePath_app (path rest : list string) (model : Value) :
  reducePath (path ++ rest) model = reducePath path model ≫= reducePath rest.
Proof.
  revert model. induction path as [|key path IH]; intros model; [done|].
  rewrite <- app_comm_cons, !reducePath_cons.
  destruct (getProp model key) as [v|e]; simpl; [apply IH|done].
Qed.

Lemma get_insert_eq (object : Object) (key : string) (value : Value) :
  get (<[key := value]> object) key = value.
Proof. unfold get. by rewrite lookup_insert_eq. Qed.

Lemma get_singleton_eq (key : string) (value : Value) :
  get {[ key := value ]} key = value.
Proof. unfold get. by rewrite lookup_singleton_eq. Qed.

Section ClientMore.

Variable toString : Ast.OperationOrDocument → Value → string.
Variable decode :
  option Ast.Operation → Value → ClassRegistry → option Object → Completion Value.

(** The graphQL parameters of a request without other properties. *)
Lemma fetchNextPage_node (this : Client) (nodeOrNodes : Value)
    (node : GraphModel) (query : Ast.Operation) (path : list string)
    (options : option Object) :
  pageNode nodeOrNodes = VModel node →
  Model.nextPageQueryAndPath node = Some (query, path) →
  ∃ k,
    fetchNextPage toString decode this nodeOrNodes options
    = Return (Await (fetcher this)
                match nextPageVariableValues node options with
                | Some values =>
                    <["variables" := VObj values]>
                      {[ "query" := VStr (toString (Ast.IsOperation query) VNull) ]}
                | None =>
                    {[ "query" := VStr (toString (Ast.IsOperation query) VNull) ]}
                end None k)
    ∧ (∀ reason, k (Failed reason) = Rejected reason)
    ∧ ∀ response,
        k (Fulfilled response)
        = then_ (onResponse decode this (Some query)
                   (nextPageVariableValues node options) response)
            (λ response,
               match reducePath path (get response "model") with
               | Return model => Resolved (<["model" := model]> response)
               | Throw e => Rejected e
               end).
Proof.
  intros Hnode Hnext. unfold fetchNextPage.
  change (match nodeOrNodes with
          | VArr items => default VUndefined (last items)
          | _ => nodeOrNodes
          end) with (pageNode nodeOrNodes).
  rewrite Hnode. simpl. rewrite Hnext. simpl.
  unfold assign at 1. simpl. rewrite (left_id_L ∅ (∪)).
  eexists. split; [reflexivity|]. by split.
Qed.


(** X2.  A request that is one operation, or a document that holds exactly
    one, is sent whatever the other properties are, [null] and an
    [operationName] that names something else included: nothing is thrown,
    the transport is called, and the response is decoded against that
    operation. *)
Theorem send_sole_operation (this : Client) (request : Request)
    (variableValues otherProperties headers : option Object)
    (inContextDirective : Value) (operation : Ast.Operation) :
  match request with
  | RequestFunction f => f this
  | RequestValue r => r
  end = Ast.IsOperation operation
  ∨ (∃ document,
       match request with
       | RequestFunction f => f this
       | RequestValue r => r
       end = Ast.IsDocument document
       ∧ Ast.operations document = [operation]) →
  ∃ graphQLParams k,
    send toString decode this request variableValues otherProperties headers
         inContextDirective
    = Return (Await (fetcher this) graphQLParams headers k)
    ∧ ∀ response,
        k (Fulfilled response)
        = onResponse decode this (Some operation) variableValues response.
Proof.
  intros Hsole.
  destruct (send_returns toString decode this request variableValues
              otherProperties headers inContextDirective (Some operation))
    as (graphQLParams & k & Hsend & Hk & _).
  - destruct Hsole as [->|(document & -> & Hone)]; [done|].
    unfold selectOperation. by rewrite Hone.
  - by exists graphQLParams, k.
Qed.

(** X3.  The parameters [send] hands to the transport: every other property
    is passed as it is and wins over [query] and [variables]; otherwise
    [query] is the text of the request, [variables] are the variable values
    when some are given, and there is nothing else.  The transport called is
    the client's, with the headers of the call. *)
Theorem send_parameters (this : Client) (request : Request)
    (variableValues otherProperties headers : option Object)
    (inContextDirective : Value) (f : Fetcher) (graphQLParams : Object)
    (h : option Object) (k : Reply → Promise Object) :
  send toString decode this request variableValues otherProperties headers
       inContextDirective
  = Return (Await f graphQLParams h k) →
  f = fetcher this ∧ h = headers
  ∧ ∀ key,
      graphQLParams !! key
      = match otherProperties ≫= (.!! key) with
        | Some value => Some value
        | None =>
            if decide (key = "query")
            then Some (VStr (toString
                               match request with
                               | RequestFunction f => f this
                               | RequestValue r => r
                               end inContextDirective))
            else if decide (key = "variables")
                 then VObj <$> variableValues
                 else None
        end.
Proof.
  unfold send. destruct (selectOperation _ otherProperties); [|done].
  simpl. intros [= <- <- <- _]. split; [done|]. split; [done|].
  intros key. unfold assign. rewrite lookup_union.
  assert (ownProps (optional otherProperties) !! key
          = otherProperties ≫= (.!! key)) as ->.
  { by destruct otherProperties. }
  destruct (otherProperties ≫= (.!! key)) as [value|];
    [by destruct (_ !! key)|].
  rewrite (left_id_L None (∪)).
  destruct (decide (key = "query")) as [->|Hquery].
  { destruct variableValues; [rewrite lookup_insert_ne by done|];
      by rewrite lookup_singleton_eq. }
  destruct (decide (key = "variables")) as [->|Hvariables].
  { destruct variableValues; simpl; [by rewrite lookup_insert_eq|].
    by rewrite lookup_singleton_ne. }
  destruct variableValues; [rewrite lookup_insert_ne by done|];
    by rewrite lookup_singleton_ne.
Qed.

Lemma onResponse_settled (this : Client) (operation : option Ast.Operation)
    (variableValues : option Object) (response : Object) :
  settled (onResponse decode this operation variableValues response).
Proof.
  unfold onResponse. destruct (truthy _); [|done]. by destruct (decode _ _ _ _).
Qed.

Lemma fetchNextPage_inv (this : Client) (nodeOrNodes : Value)
    (options : option Object) :
  match fetchNextPage toString decode this nodeOrNodes options with
  | Return _ =>
      ∃ node query path,
        pageNode nodeOrNodes = VModel node
        ∧ Model.nextPageQueryAndPath node = Some (query, path)
  | Throw e =>
      e = TypeError
      ∧ ∀ node, pageNode nodeOrNodes = VModel node →
                Model.nextPageQueryAndPath node = None
  end.
Proof.
  destruct (pageNode nodeOrNodes) as [| | | | | | |node] eqn:Hnode;
    try (unfold fetchNextPage;
         change (match nodeOrNodes with
                 | VArr items => default VUndefined (last items)
                 | _ => nodeOrNodes
                 end) with (pageNode nodeOrNodes);
         rewrite Hnode; by simpl).
  destruct (Model.nextPageQueryAndPath node) as [[query path]|] eqn:Hnext.
  - destruct (fetchNextPage_node this nodeOrNodes node query path options
                Hnode Hnext) as (k & -> & _). eauto.
  - unfold fetchNextPage.
    change (match nodeOrNodes with
            | VArr items => default VUndefined (last items)
            | _ => nodeOrNodes
            end) with (pageNode nodeOrNodes).
    rewrite Hnode. simpl. rewrite Hnext. simpl. split; [done|].
    by intros ? [= <-].
Qed.

(** X4.  [send], [fetchNextPage] and [refetch] call the transport of the
    client once: the promise they return waits for that call, any answer
    settles it without a further call, and a failure of the transport
    rejects it with the reason the transport gave. *)
Theorem one_transport_call (this : Client) :
  (∀ request variableValues otherProperties headers inContextDirective promise,
     send toString decode this request variableValues otherProperties headers
          inContextDirective = Return promise →
     ∃ graphQLParams k,
       promise = Await (fetcher this) graphQLParams headers k
       ∧ (∀ reply, settled (k reply))
       ∧ ∀ reason, k (Failed reason) = Rejected reason)
  ∧ (∀ nodeOrNodes options promise,
       fetchNextPage toString decode this nodeOrNodes options = Return promise →
       ∃ graphQLParams k,
         promise = Await (fetcher this) graphQLParams None k
         ∧ (∀ reply, settled (k reply))
         ∧ ∀ reason, k (Failed reason) = Rejected reason)
  ∧ (∀ nodeType promise,
       refetch toString decode this nodeType = Return promise →
       ∃ graphQLParams k,
         promise = Await (fetcher this) graphQLParams None k
         ∧ (∀ reply, settled (k reply))
         ∧ ∀ reason, k (Failed reason) = Rejected reason).
Proof.
  split; [|split].
  - intros request variableValues otherProperties headers inContextDirective
      promise. unfold send.
    destruct (selectOperation _ otherProperties) as [operation|]; [|done].
    simpl. intros [= <-]. eexists _, _. split; [reflexivity|].
    split; [|done]. intros [response|reason]; simpl; [|done].
    apply onResponse_settled.
  - intros nodeOrNodes options promise Hfetch.
    pose proof (fetchNextPage_inv this nodeOrNodes options) as Hinv.
    rewrite Hfetch in Hinv. destruct Hinv as (node & query & path & Hnode & Hnext).
    destruct (fetchNextPage_node this nodeOrNodes node query path options
                Hnode Hnext) as (k & Hk & Hfailed & Hfulfilled).
    rewrite Hk in Hfetch. injection Hfetch as <-.
    eexists _, k. split; [reflexivity|]. split; [|done].
    intros [response|reason]; [|by rewrite Hfailed].
    rewrite Hfulfilled.
    pose proof (onResponse_settled this (Some query)
                  (nextPageVariableValues node options) response) as Hs.
    destruct (onResponse _ _ _ _ _) as [r|e| |]; simpl; try done.
    by destruct (reducePath _ _).
  - intros [node|] promise; [|done]. unfold refetch.
    destruct (negb _); [done|].
    destruct (send_operation toString decode this (Model.refetchQuery node)
                None) as (graphQLParams & k & -> & _ & Hk & Hfailed).
    simpl. intros [= <-]. eexists _, _. split; [reflexivity|].
    split; [|intros reason; simpl; by rewrite Hfailed].
    intros [response|reason]; simpl; [|by rewrite Hfailed].
    rewrite Hk.
    pose proof (onResponse_settled this (Some (Model.refetchQuery node)) None
                  response) as Hs.
    destruct (onResponse _ _ _ _ _) as [r|e| |]; simpl; try done.
    by destruct (getProp _ _).
Qed.

(** X5.  The response [send] resolves with keeps every property the
    transport answered with, [errors] among them; only [model] may differ. *)
Theorem send_keeps_response_properties (this : Client) (request : Request)
    (variableValues otherProperties headers : option Object)
    (inContextDirective : Value) (f : Fetcher) (graphQLParams : Object)
    (h : option Object) (k : Reply → Promise Object)
    (response result : Object) (key : string) :
  send toString decode this request variableValues otherProperties headers
       inContextDirective
  = Return (Await f graphQLParams h k) →
  k (Fulfilled response) = Resolved result →
  key ≠ "model" →
  result !! key = response !! key.
Proof.
  unfold send. destruct (selectOperation _ otherProperties); [|done].
  simpl. intros [= _ _ _ <-]. simpl. unfold onResponse.
  destruct (truthy _); [|by intros [= <-]].
  destruct (decode _ _ _ _); [|done].
  intros [= <-] Hkey. by rewrite lookup_insert_ne.
Qed.

(** X6.  Which error the constructor throws: the one about [url] and
    [fetcher] when both are supplied, whatever [fetcherOptions] is; the one
    about [fetcherOptions] when they come with a [fetcher] and no [url]; the
    one about the missing transport when neither is supplied, even with
    [fetcherOptions].  A client that is returned holds the type bundle it
    was given and the registry of the options, a new registry by default. *)
Theorem constructor_errors (bundle : Schema.TypeBundle)
    (options : Options.t) :
  (is_Some (nonEmpty (Options.url options)) →
   is_Some (Options.fetcher options) →
   constructor bundle options = Throw (JsError urlAndFetcherMessage))
  ∧ (nonEmpty (Options.url options) = None →
     is_Some (Options.fetcher options) →
     is_Some (Options.fetcherOptions options) →
     constructor bundle options = Throw (JsError fetcherOptionsMessage))
  ∧ (nonEmpty (Options.url options) = None →
     Options.fetcher options = None →
     constructor bundle options = Throw (JsError noTransportMessage))
  ∧ (∀ client,
       constructor bundle options = Return client →
       typeBundle client = bundle
       ∧ classRegistry client
         = default newClassRegistry (Options.registry options)).
Proof.
  unfold constructor.
  destruct (nonEmpty (Options.url options)) as [url|],
           (Options.fetcher options) as [custom|],
           (Options.fetcherOptions options) as [fetcherOptions|];
    simpl; repeat split; intros; simplify_eq/=;
    try done; try (by destruct select (is_Some None) as [? [=]]).
Qed.


(** X7.  [fetchNextPage] returns a promise exactly when the node it is asked
    about, the last element of an array or the argument itself, is a model
    that has a next page query; otherwise it throws a [TypeError] before any
    call of the transport, as it does on the empty array. *)
Theorem fetchNextPage_needs_connection_node (this : Client)
    (nodeOrNodes : Value) (options : option Object) :
  ((∃ promise,
      fetchNextPage toString decode this nodeOrNodes options = Return promise)
   ↔ ∃ node queryAndPath,
       pageNode nodeOrNodes = VModel node
       ∧ Model.nextPageQueryAndPath node = Some queryAndPath)
  ∧ (∀ e, fetchNextPage toString decode this nodeOrNodes options = Throw e →
          e = TypeError)
  ∧ fetchNextPage toString decode this (VArr []) options = Throw TypeError.
Proof.
  pose proof (fetchNextPage_inv this nodeOrNodes options) as Hinv.
  split; [|split; [|done]].
  - split.
    + intros [promise Hfetch]. rewrite Hfetch in Hinv.
      destruct Hinv as (node & query & path & Hnode & Hnext). eauto.
    + intros (node & [query path] & Hnode & Hnext).
      destruct (fetchNextPage_node this nodeOrNodes node query path options
                  Hnode Hnext) as (k & Hk & _). eauto.
  - intros e Hfetch. rewrite Hfetch in Hinv. by destruct Hinv.
Qed.

(** X8.  The variables [fetchNextPage] sends with the next page query: the
    options win over the variable values of the model, which are carried
    over otherwise; a model without variable values and no options send no
    [variables] at all.  The query sent is the next page query of the
    model. *)
Theorem fetchNextPage_variables (this : Client) (nodeOrNodes : Value)
    (node : GraphModel) (query : Ast.Operation) (path : list string)
    (options : option Object) (f : Fetcher) (graphQLParams : Object)
    (h : option Object) (k : Reply → Promise Object) :
  pageNode nodeOrNodes = VModel node →
  Model.nextPageQueryAndPath node = Some (query, path) →
  fetchNextPage toString decode this nodeOrNodes options
  = Return (Await f graphQLParams h k) →
  graphQLParams !! "query"
  = Some (VStr (toString (Ast.IsOperation query) VNull))
  ∧ (truthy (Model.variableValues node) = false → options = None →
     graphQLParams !! "variables" = None)
  ∧ (truthy (Model.variableValues node) = true → options = None →
     graphQLParams !! "variables"
     = Some (VObj (ownProps (Model.variableValues node))))
  ∧ (∀ given, options = Some given →
       ∃ values,
         graphQLParams !! "variables" = Some (VObj values)
         ∧ ∀ key,
             values !! key
             = match given !! key with
               | Some value => Some value
               | None => ownProps (Model.variableValues node) !! key
               end).
Proof.
  intros Hnode Hnext Hfetch.
  destruct (fetchNextPage_node this nodeOrNodes node query path options
              Hnode Hnext) as (k' & Hk & _).
  rewrite Hk in Hfetch. injection Hfetch as _ <- _ _.
  unfold nextPageVariableValues. split; [|split; [|split]].
  - destruct (_ || _); [rewrite lookup_insert_ne by done|];
      by rewrite lookup_singleton_eq.
  - intros -> ->. by simpl.
  - intros -> ->. simpl. rewrite lookup_insert_eq. unfold assign. simpl.
    by rewrite (left_id_L ∅ (∪)), (right_id_L ∅ (∪)).
  - intros given ->. rewrite orb_true_r. eexists. split.
    + by rewrite lookup_insert_eq.
    + intros key. unfold assign. simpl.
      rewrite lookup_union, (right_id_L ∅ (∪)).
      by destruct (given !! key), (ownProps _ !! key).
Qed.

(** X9.  What [fetchNextPage] resolves with: when the response carries
    [data] that decodes to a model, the response with [model] replaced by
    what is found in that model along the path of the query, and a rejection
    when the path runs into [undefined] or [null], or when [decode] throws.
    A response without [data] and without [model] is rejected with a
    [TypeError] as soon as the path is not empty. *)
Theorem fetchNextPage_drills_into_model (this : Client) (nodeOrNodes : Value)
    (node : GraphModel) (query : Ast.Operation) (path : list string)
    (options : option Object) (f : Fetcher) (graphQLParams : Object)
    (h : option Object) (k : Reply → Promise Object) :
  pageNode nodeOrNodes = VModel node →
  Model.nextPageQueryAndPath node = Some (query, path) →
  fetchNextPage toString decode this nodeOrNodes options
  = Return (Await f graphQLParams h k) →
  ∀ response,
    (truthy (get response "data") = true →
     ∀ model,
       decode (Some query) (get response "data") (classRegistry this)
              (nextPageVariableValues node options) = Return model →
       k (Fulfilled response)
       = match reducePath path model with
         | Return found => Resolved (<["model" := found]> response)
         | Throw e => Rejected e
         end)
    ∧ (truthy (get response "data") = true →
       ∀ e,
         decode (Some query) (get response "data") (classRegistry this)
                (nextPageVariableValues node options) = Throw e →
         k (Fulfilled response) = Rejected e)
    ∧ (truthy (get response "data") = false →
       response !! "model" = None → path ≠ [] →
       k (Fulfilled response) = Rejected TypeError).
Proof.
  intros Hnode Hnext Hfetch response.
  destruct (fetchNextPage_node this nodeOrNodes node query path options
              Hnode Hnext) as (k' & Hk & _ & Hfulfilled).
  rewrite Hk in Hfetch. injection Hfetch as _ _ _ <-.
  rewrite Hfulfilled. unfold onResponse. split; [|split].
  - intros -> model ->. simpl. unfold get at 1.
    rewrite lookup_insert_eq. simpl.
    destruct (reducePath path model); [|done].
    by rewrite insert_insert_eq.
  - by intros -> e ->.
  - intros -> Hmodel Hpath. simpl. unfold get. rewrite Hmodel. simpl.
    destruct path as [|key path]; [done|].
    by rewrite reducePath_cons.
Qed.

Lemma then_settled {A B : Type} (promise : Promise A)
    (onFulfilled : A → Promise B) :
  settled promise → (∀ a, settled (onFulfilled a)) →
  settled (then_ promise onFulfilled).
Proof. destruct promise; simpl; auto. Qed.

Lemma settled_everyCall {A : Type}
    (P : Fetcher → Object → option Object → Prop) (promise : Promise A) :
  settled promise → everyCall P promise.
Proof. by destruct promise. Qed.

Lemma fetchNextPage_settles (this : Client) (query : Ast.Operation)
    (path : list string) (values : option Object) (response : Object) :
  settled (then_ (onResponse decode this (Some query) values response)
             (λ response,
                match reducePath path (get response "model") with
                | Return model => Resolved (<["model" := model]> response)
                | Throw e => Rejected e
                end)).
Proof.
  apply then_settled; [apply onResponse_settled|].
  intros r. by destruct (reducePath _ _).
Qed.

Lemma fetchAllPages_unfold (fuel : nat) (this : Client)
    (paginatedModels : option (list Value)) (options : Object) :
  fetchAllPages toString decode fuel this paginatedModels options
  = (more ← hasNextPage paginatedModels;
     if truthy more then
       promise ← fetchNextPage toString decode this
                   (arrayOrNull paginatedModels)
                   (Some {[ "first" := get options "pageSize" ]});
       Return (then_ promise (λ response,
         match concat paginatedModels (get response "model") with
         | Throw e => Rejected e
         | Return pages =>
             match fuel with
             | O => Pending
             | S fuel' =>
                 flatten (fetchAllPages toString decode fuel' this (Some pages)
                            {[ "pageSize" := get options "pageSize" ]})
             end
         end))
     else Return (Resolved paginatedModels)).
Proof. by destruct fuel. Qed.

(** One step of [fetchAllPages] on a list whose last model has a next
    page. *)
Lemma fetchAllPages_step (fuel : nat) (this : Client) (items : list Value)
    (node : GraphModel) (query : Ast.Operation) (path : list string)
    (options : Object) :
  last items = Some (VModel node) →
  truthy (Model.hasNextPage node) = true →
  Model.nextPageQueryAndPath node = Some (query, path) →
  ∃ k,
    fetchAllPages toString decode fuel this (Some items) options
    = Return (Await (fetcher this)
                (<["variables" :=
                     VObj (assign (assign ∅ (Model.variableValues node))
                             (VObj {[ "first" := get options "pageSize" ]}))]>
                   {[ "query" := VStr (toString (Ast.IsOperation query) VNull) ]})
                None k)
    ∧ (∀ reason, k (Failed reason) = Rejected reason)
    ∧ ∀ response model found,
        truthy (get response "data") = true →
        decode (Some query) (get response "data") (classRegistry this)
               (nextPageVariableValues node
                  (Some {[ "first" := get options "pageSize" ]}))
        = Return model →
        reducePath path model = Return found →
        k (Fulfilled response)
        = match concat (Some items) found with
          | Throw e => Rejected e
          | Return pages =>
              match fuel with
              | O => Pending
              | S fuel' =>
                  flatten (fetchAllPages toString decode fuel' this
                             (Some pages)
                             {[ "pageSize" := get options "pageSize" ]})
              end
          end.
Proof.
  intros Hlast Hmore Hnext. rewrite fetchAllPages_unfold.
  assert (pageNode (VArr items) = VModel node) as Hnode.
  { unfold pageNode. by rewrite Hlast. }
  destruct (fetchNextPage_node this (VArr items) node query path
              (Some {[ "first" := get options "pageSize" ]}) Hnode Hnext)
    as (k & Hk & Hfailed & Hfulfilled).
  unfold hasNextPage, arrayOrNull. rewrite Hlast.
  cbn [getProp mbind Completion_bind].
  change (bool_decide ("hasNextPage" = "hasNextPage")) with true.
  cbn iota. rewrite Hmore, Hk.
  unfold nextPageVariableValues at 1. rewrite orb_true_r.
  cbn [mbind Completion_bind then_].
  eexists. split; [reflexivity|]. split.
  - intros reason. simpl. by rewrite Hfailed.
  - intros response model found Hdata Hdecode Hfound. simpl.
    rewrite Hfulfilled. unfold onResponse. rewrite Hdata, Hdecode. simpl.
    rewrite get_insert_eq, Hfound. simpl. by rewrite get_insert_eq.
Qed.


Lemma fetchAllPages_inv (fuel : nat) (this : Client)
    (paginatedModels : option (list Value)) (options : Object)
    (promise : Promise (option (list Value))) :
  fetchAllPages toString decode fuel this paginatedModels options
  = Return promise →
  promise = Resolved paginatedModels
  ∨ ∃ page,
      fetchNextPage toString decode this (arrayOrNull paginatedModels)
        (Some {[ "first" := get options "pageSize" ]}) = Return page
      ∧ promise
        = then_ page (λ response,
            match concat paginatedModels (get response "model") with
            | Throw e => Rejected e
            | Return pages =>
                match fuel with
                | O => Pending
                | S fuel' =>
                    flatten (fetchAllPages toString decode fuel' this
                               (Some pages)
                               {[ "pageSize" := get options "pageSize" ]})
                end
            end).
Proof.
  rewrite fetchAllPages_unfold.
  destruct (hasNextPage paginatedModels) as [more|]; [|done]. simpl.
  destruct (truthy more); [|intros [= <-]; by left].
  destruct (fetchNextPage _ _ _ _ _) as [page|]; [|done]. simpl.
  intros [= <-]. right. eauto.
Qed.

(** X11.  [fetchAllPages] never drops or reorders what it was given:
    whatever the transport answers, a list it resolves with starts with the
    input list, and [null] is resolved as [null]. *)
Theorem fetchAllPages_keeps_input (fuel : nat) (this : Client)
    (paginatedModels : option (list Value)) (options : Object)
    (promise : Promise (option (list Value))) (result : option (list Value)) :
  fetchAllPages toString decode fuel this paginatedModels options
  = Return promise →
  resolves promise result →
  match paginatedModels with
  | None => result = None
  | Some items => ∃ more, result = Some (items ++ more)
  end.
Proof.
  revert paginatedModels options promise.
  induction fuel as [|fuel IH]; intros paginatedModels options promise Hfetch;
    apply fetchAllPages_inv in Hfetch as [->|(page & _ & ->)].
  - intros <-%resolves_inv. destruct paginatedModels; [|done].
    exists []. by rewrite app_nil_r.
  - intros (response & _ & Hcb)%resolves_then.
    destruct (concat _ _); by apply resolves_inv in Hcb.
  - intros <-%resolves_inv. destruct paginatedModels; [|done].
    exists []. by rewrite app_nil_r.
  - intros (response & _ & Hcb)%resolves_then.
    destruct paginatedModels as [items|]; [|by apply resolves_inv in Hcb].
    simpl in Hcb.
    destruct (fetchAllPages _ _ _ _ _ _) as [rest|] eqn:Hrest;
      [|by apply resolves_inv in Hcb].
    destruct (IH _ _ _ Hrest Hcb) as [more' ->].
    eexists. by rewrite <- app_assoc.
Qed.

Lemma fetchNextPage_calls (this : Client) (nodeOrNodes : Value)
    (pageSize : Value) (page : Promise Object) :
  fetchNextPage toString decode this nodeOrNodes
    (Some {[ "first" := pageSize ]}) = Return page →
  everyCall
    (λ f graphQLParams headers,
       f = fetcher this ∧ headers = None
       ∧ ∃ values,
           graphQLParams !! "variables" = Some (VObj values)
           ∧ values !! "first" = Some pageSize)
    page.
Proof.
  intros Hpage.
  pose proof (fetchNextPage_inv this nodeOrNodes
                (Some {[ "first" := pageSize ]})) as Hinv.
  rewrite Hpage in Hinv.
  destruct Hinv as (node & query & path & Hnode & Hnext).
  destruct (fetchNextPage_node this _ node query path
              (Some {[ "first" := pageSize ]}) Hnode Hnext)
    as (k & Hk & Hfailed & Hfulfilled).
  rewrite Hk in Hpage. injection Hpage as <-.
  split.
  - split; [done|]. split; [done|].
    unfold nextPageVariableValues. rewrite orb_true_r.
    eexists. split; [by rewrite lookup_insert_eq|].
    unfold assign. simpl. apply lookup_union_Some_l, lookup_singleton_eq.
  - intros [response|reason]; [|by rewrite Hfailed].
    rewrite Hfulfilled. apply settled_everyCall, fetchNextPage_settles.
Qed.

(** X12.  Every call of the transport [fetchAllPages] makes, for the first
    page and for all that follow, goes to the transport of the client, has
    no headers, and asks for [pageSize] nodes in the variable [first]. *)
Theorem fetchAllPages_calls (fuel : nat) (this : Client)
    (paginatedModels : option (list Value)) (options : Object)
    (promise : Promise (option (list Value))) :
  fetchAllPages toString decode fuel this paginatedModels options
  = Return promise →
  everyCall
    (λ f graphQLParams headers,
       f = fetcher this ∧ headers = None
       ∧ ∃ values,
           graphQLParams !! "variables" = Some (VObj values)
           ∧ values !! "first" = Some (get options "pageSize"))
    promise.
Proof.
  remember (get options "pageSize") as pageSize eqn:Hsize.
  revert paginatedModels options promise Hsize.
  induction fuel as [|fuel IH]; intros paginatedModels options promise Hsize
    Hfetch;
    apply fetchAllPages_inv in Hfetch as [->|(page & Hpage & ->)];
    try done; rewrite <- Hsize in *;
    (apply everyCall_then; [by eapply fetchNextPage_calls|]);
    intros response _; (destruct (concat _ _) as [pages|]; [|done]).
  - done.
  - destruct (fetchAllPages _ _ _ _ _ _) as [rest|] eqn:Hrest; [|done].
    simpl. eapply IH; [|done]. by rewrite get_singleton_eq.
Qed.

(** X13.  A response that serves an empty page for a model that has a next
    page makes [fetchAllPages] ask again for the same page: however many
    such responses follow each other, the chain sends the same request once
    more, and it never settles. *)
Theorem fetchAllPages_empty_page_repeats (this : Client)
    (items : list Value) (node : GraphModel) (response : Object)
    (options : Object) :
  last items = Some (VModel node) →
  truthy (Model.hasNextPage node) = true →
  serves decode this (get options "pageSize") node response [] →
  ∃ graphQLParams,
    ∀ fuel,
      ∃ promise,
        fetchAllPages toString decode fuel this (Some items) options
        = Return promise
        ∧ (∀ n, (n ≤ fuel)%nat →
             ∃ k, answer (replicate n (Fulfilled response)) promise
                  = Await (fetcher this) graphQLParams None k)
        ∧ answer (replicate (S fuel) (Fulfilled response)) promise = Pending.
Proof.
  intros Hlast Hmore (query & path & model & Hnext & Hdata & Hdecode & Hpath).
  remember (get options "pageSize") as pageSize eqn:Hsize.
  exists (<["variables" :=
             VObj (assign (assign ∅ (Model.variableValues node))
                     (VObj {[ "first" := pageSize ]}))]>
            {[ "query" := VStr (toString (Ast.IsOperation query) VNull) ]}).
  intros fuel. revert options Hsize.
  induction fuel as [|fuel IH]; intros options Hsize.
  - destruct (fetchAllPages_step 0 this items node query path options
                Hlast Hmore Hnext) as (k & Hk & _ & Hstep).
    rewrite <- Hsize in Hk, Hstep.
    specialize (Hstep response model (VArr []) Hdata Hdecode Hpath).
    simpl in Hstep.
    eexists. split; [exact Hk|]. split.
    + intros n Hn. assert (n = 0) as -> by lia. simpl. eauto.
    + simpl. by rewrite Hstep.
  - destruct (fetchAllPages_step (S fuel) this items node query path options
                Hlast Hmore Hnext) as (k & Hk & _ & Hstep).
    rewrite <- Hsize in Hk, Hstep.
    specialize (Hstep response model (VArr []) Hdata Hdecode Hpath).
    simpl in Hstep. rewrite app_nil_r in Hstep.
    destruct (IH {[ "pageSize" := pageSize ]})
      as (rest & Hrest & Hasks & Hends); [by rewrite get_singleton_eq|].
    rewrite Hrest in Hstep. simpl in Hstep.
    eexists. split; [exact Hk|]. split.
    + intros [|n] Hn; [simpl; eauto|].
      simpl. rewrite Hstep. apply Hasks. lia.
    + change (replicate (S (S fuel)) (Fulfilled response))
        with (Fulfilled response :: replicate (S fuel) (Fulfilled response)).
      cbn [answer]. by rewrite Hstep.
Qed.

(** X14.  When the data of a page holds [undefined] or [null] where the
    nodes of the next page are looked for, [fetchAllPages] appends that
    value to the list and, going on, reads [hasNextPage] of it: the promise
    is rejected with a [TypeError]. *)
Theorem fetchAllPages_missing_page_rejects (fuel : nat) (this : Client)
    (items : list Value) (node : GraphModel) (query : Ast.Operation)
    (path : list string) (response : Object) (model found : Value)
    (options : Object) :
  last items = Some (VModel node) →
  truthy (Model.hasNextPage node) = true →
  Model.nextPageQueryAndPath node = Some (query, path) →
  truthy (get response "data") = true →
  decode (Some query) (get response "data") (classRegistry this)
         (nextPageVariableValues node
            (Some {[ "first" := get options "pageSize" ]}))
  = Return model →
  reducePath path model = Return found →
  found = VUndefined ∨ found = VNull →
  ∃ graphQLParams k,
    fetchAllPages toString decode (S fuel) this (Some items) options
    = Return (Await (fetcher this) graphQLParams None k)
    ∧ k (Fulfilled response) = Rejected TypeError.
Proof.
  intros Hlast Hmore Hnext Hdata Hdecode Hpath Hfound.
  destruct (fetchAllPages_step (S fuel) this items node query path options
              Hlast Hmore Hnext) as (k & Hk & _ & Hstep).
  eexists _, k. split; [exact Hk|].
  rewrite (Hstep response model found Hdata Hdecode Hpath).
  assert (concat (Some items) found = Return (items ++ [found])) as ->.
  { by destruct Hfound as [-> | ->]. }
  rewrite fetchAllPages_unfold. unfold hasNextPage.
  rewrite last_snoc. by destruct Hfound as [-> | ->].
Qed.

(** X15.  [fetchAllPages] of [null] resolves with [null] without a call of
    the transport; on a list whose last element is [undefined] or [null] it
    throws a [TypeError], reading [hasNextPage] of that element. *)
Theorem fetchAllPages_null_and_holes (fuel : nat) (this : Client)
    (items : list Value) (hole : Value) (options : Object) :
  fetchAllPages toString decode fuel this None options
  = Return (Resolved None)
  ∧ (hole = VUndefined ∨ hole = VNull →
     fetchAllPages toString decode fuel this (Some (items ++ [hole])) options
     = Throw TypeError).
Proof.
  rewrite !fetchAllPages_unfold. split; [done|].
  unfold hasNextPage. rewrite last_snoc. by intros [-> | ->].
Qed.

(** X16.  [fetchAllPages] collects the pages: when the responses of the
    transport serve one page after the other, each for the last model of
    the list so far, down to a list whose last model has no next page, the
    promise resolves with the input list followed by all these pages, in
    order, provided the bound allows that many calls. *)
Theorem fetchAllPages_collects_pages (fuel : nat) (this : Client)
    (items : list Value) (responses : list Object) (result : list Value)
    (options : Object) :
  paged decode this (get options "pageSize") items responses result →
  (length responses ≤ fuel)%nat →
  ∃ promise,
    fetchAllPages toString decode fuel this (Some items) options
    = Return promise
    ∧ answer (Fulfilled <$> responses) promise = Resolved (Some result).
Proof.
  remember (get options "pageSize") as pageSize eqn:Hsize.
  intros Hpaged. revert fuel options Hsize.
  induction Hpaged
    as [items more Hmore Hfalsy
       |items node response page responses result Hlast Hmore Hserves _ IH];
    intros fuel options Hsize Hfuel.
  - exists (Resolved (Some items)). split; [|done].
    rewrite fetchAllPages_unfold, Hmore. simpl. by rewrite Hfalsy.
  - destruct fuel as [|fuel]; [simpl in Hfuel; lia|].
    destruct Hserves as (query & path & model & Hnext & Hdata & Hdecode & Hpath).
    destruct (fetchAllPages_step (S fuel) this items node query path options
                Hlast Hmore Hnext) as (k & Hk & _ & Hstep).
    rewrite <- Hsize in Hstep.
    specialize (Hstep response model (VArr page) Hdata Hdecode Hpath).
    simpl in Hstep.
    destruct (IH fuel {[ "pageSize" := pageSize ]}) as (rest & Hrest & Hanswer);
      [by rewrite get_singleton_eq|simpl in Hfuel; lia|].
    rewrite Hrest in Hstep. simpl in Hstep.
    eexists. split; [exact Hk|]. simpl. by rewrite Hstep.
Qed.

End ClientMore.

(** ** The further properties at the test doubles *)

Lemma send_sole_operation_witness :
  ∃ graphQLParams k,
    send Fixture.render Fixture.decodeData Fixture.client
         (RequestValue (Ast.IsDocument Scenario.oneQuery)) None
         (Some {[ "operationName" := VStr "nodeQuery" ]}) None VNull
    = Return (Await (fetcher Fixture.client) graphQLParams None k)
    ∧ ∀ response,
        k (Fulfilled response)
        = onResponse Fixture.decodeData Fixture.client
            (Some Fixture.shopQuery) None response.
Proof.
  apply (send_sole_operation Fixture.render Fixture.decodeData Fixture.client
           (RequestValue (Ast.IsDocument Scenario.oneQuery)) None
           (Some {[ "operationName" := VStr "nodeQuery" ]}) None VNull
           Fixture.shopQuery).
  right. exists Scenario.oneQuery. split; reflexivity.
Defined.

Lemma send_parameters_witness :
  Scenario.paramsOf Scenario.sent !! "query" = Some (VStr "{ shop { id } }")
  ∧ Scenario.paramsOf Scenario.sent !! "variables"
    = Some (VObj {[ "id" := VStr "1" ]})
  ∧ Scenario.paramsOf Scenario.sent !! "operationName" = None.
Proof.
  destruct (send_parameters Fixture.render Fixture.decodeData Fixture.client
              (RequestValue (Ast.IsOperation Fixture.shopQuery))
              (Some {[ "id" := VStr "1" ]})
              (Some {[ "query" := VStr "{ shop { id } }" ]}) None VNull
              (customFetcher "mock") (Scenario.paramsOf Scenario.sent) None
              (Scenario.thenOf Scenario.sent))
    as (_ & _ & Hparams).
  - vm_compute. reflexivity.
  - split; [exact (Hparams "query")|].
    split; [exact (Hparams "variables")|exact (Hparams "operationName")].
Defined.

Lemma one_transport_call_witness :
  ∃ graphQLParams k,
    Fixture.shopPromise = Await (fetcher Fixture.client) graphQLParams None k
    ∧ (∀ reply, settled (k reply))
    ∧ ∀ reason, k (Failed reason) = Rejected reason.
Proof.
  destruct (one_transport_call Fixture.render Fixture.decodeThrows
              Fixture.client) as (Hsend & _ & _).
  apply (Hsend (RequestValue (Ast.IsOperation Fixture.shopQuery))
           None None None VNull Fixture.shopPromise).
  vm_compute. reflexivity.
Defined.

Lemma send_keeps_response_properties_witness :
  (<["model" := VObj {[ "shop" := VNull ]}]> Scenario.partial) !! "errors"
  = Scenario.partial !! "errors".
Proof.
  apply (send_keeps_response_properties Fixture.render Fixture.decodeData
           Fixture.client (RequestValue (Ast.IsOperation Fixture.shopQuery))
           (Some {[ "id" := VStr "1" ]})
           (Some {[ "query" := VStr "{ shop { id } }" ]}) None VNull
           (customFetcher "mock") (Scenario.paramsOf Scenario.sent) None
           (Scenario.thenOf Scenario.sent) Scenario.partial).
  - vm_compute. reflexivity.
  - vm_compute. reflexivity.
  - discriminate.
Defined.

Lemma constructor_errors_witness :
  constructor ∅ {| Options.url := Some "https://shop.example/graphql";
                   Options.fetcherOptions := Some ∅;
                   Options.fetcher := Some (customFetcher "mock");
                   Options.registry := None |}
  = Throw (JsError urlAndFetcherMessage)
  ∧ constructor ∅ {| Options.url := Some "";
                     Options.fetcherOptions := Some ∅;
                     Options.fetcher := Some (customFetcher "mock");
                     Options.registry := None |}
    = Throw (JsError fetcherOptionsMessage)
  ∧ constructor ∅ {| Options.url := None;
                     Options.fetcherOptions := Some ∅;
                     Options.fetcher := None;
                     Options.registry := None |}
    = Throw (JsError noTransportMessage).
Proof.
  split; [|split].
  - apply (constructor_errors ∅
             {| Options.url := Some "https://shop.example/graphql";
                Options.fetcherOptions := Some ∅;
                Options.fetcher := Some (customFetcher "mock");
                Options.registry := None |}); vm_compute; eauto.
  - apply (constructor_errors ∅
             {| Options.url := Some "";
                Options.fetcherOptions := Some ∅;
                Options.fetcher := Some (customFetcher "mock");
                Options.registry := None |}); vm_compute; eauto.
  - apply (constructor_errors ∅
             {| Options.url := None;
                Options.fetcherOptions := Some ∅;
                Options.fetcher := None;
                Options.registry := None |}); reflexivity.
Defined.

Lemma fetchNextPage_needs_connection_node_witness :
  (∃ promise,
     fetchNextPage Fixture.render Fixture.decodeData Fixture.client
       (VArr [VModel Fixture.lastProduct; VModel Fixture.product]) None
     = Return promise)
  ∧ fetchNextPage Fixture.render Fixture.decodeData Fixture.client
      (VModel Fixture.shop) None = Throw TypeError.
Proof.
  split.
  - apply (fetchNextPage_needs_connection_node Fixture.render
             Fixture.decodeData Fixture.client
             (VArr [VModel Fixture.lastProduct; VModel Fixture.product]) None).
    exists Fixture.product, (Fixture.nodeQuery, ["node"; "products"]).
    split; reflexivity.
  - destruct (fetchNextPage Fixture.render Fixture.decodeData Fixture.client
                (VModel Fixture.shop) None) as [promise|e] eqn:Hfetch;
      [discriminate Hfetch|].
    f_equal.
    apply (fetchNextPage_needs_connection_node Fixture.render
             Fixture.decodeData Fixture.client (VModel Fixture.shop) None).
    exact Hfetch.
Defined.

Lemma fetchNextPage_variables_witness :
  ∃ values,
    Scenario.paramsOf
      (fetchNextPage Fixture.render Fixture.decodeData Fixture.client
         (VModel Scenario.variant) (Some {[ "first" := VNum 5 ]}))
    !! "variables" = Some (VObj values)
    ∧ values !! "first" = Some (VNum 5)
    ∧ values !! "id" = Some (VStr "gid://shopify/Product/1").
Proof.
  destruct (fetchNextPage_variables Fixture.render Fixture.decodeData
              Fixture.client (VModel Scenario.variant) Scenario.variant
              Fixture.nodeQuery ["node"; "variants"]
              (Some {[ "first" := VNum 5 ]}) (customFetcher "mock")
              (Scenario.paramsOf
                 (fetchNextPage Fixture.render Fixture.decodeData
                    Fixture.client (VModel Scenario.variant)
                    (Some {[ "first" := VNum 5 ]})))
              None
              (Scenario.thenOf
                 (fetchNextPage Fixture.render Fixture.decodeData
                    Fixture.client (VModel Scenario.variant)
                    (Some {[ "first" := VNum 5 ]}))))
    as (_ & _ & _ & Hgiven).
  - reflexivity.
  - reflexivity.
  - vm_compute. reflexivity.
  - destruct (Hgiven {[ "first" := VNum 5 ]} eq_refl)
      as (values & Hvariables & Hvalues).
    exists values. split; [exact Hvariables|].
    split; [exact (Hvalues "first")|exact (Hvalues "id")].
Defined.

Lemma fetchNextPage_drills_into_model_witness :
  Scenario.thenOf Scenario.nextPage (Fulfilled Fixture.secondPage)
  = Resolved (<["model" := VArr [VModel Fixture.lastProduct]]>
                Fixture.secondPage)
  ∧ Scenario.thenOf Scenario.nextPage (Fulfilled Scenario.errorsOnly)
    = Rejected TypeError.
Proof.
  pose proof (fetchNextPage_drills_into_model Fixture.render
                Fixture.decodeData Fixture.client (VModel Fixture.product)
                Fixture.product Fixture.nodeQuery ["node"; "products"] None
                (customFetcher "mock") (Scenario.paramsOf Scenario.nextPage)
                None (Scenario.thenOf Scenario.nextPage)
                eq_refl eq_refl) as Hdrill.
  assert (fetchNextPage Fixture.render Fixture.decodeData Fixture.client
            (VModel Fixture.product) None
          = Return (Await (customFetcher "mock")
                      (Scenario.paramsOf Scenario.nextPage) None
                      (Scenario.thenOf Scenario.nextPage))) as Hfetch.
  { vm_compute. reflexivity. }
  split.
  - destruct (Hdrill Hfetch Fixture.secondPage) as (Hdata & _ & _).
    exact (Hdata eq_refl (get Fixture.secondPage "data") eq_refl).
  - destruct (Hdrill Hfetch Scenario.errorsOnly) as (_ & _ & Hnone).
    apply Hnone.
    + reflexivity.
    + vm_compute. reflexivity.
    + discriminate.
Defined.

Lemma refetch_without_data_witness :
  ∃ graphQLParams k,
    refetch Fixture.render Fixture.decodeData Fixture.client
            (Some Fixture.product)
    = Return (Await (fetcher Fixture.client) graphQLParams None k)
    ∧ k (Fulfilled Scenario.errorsOnly) = Rejected TypeError.
Proof.
  apply (refetch_without_data Fixture.render Fixture.decodeData Fixture.client
           Fixture.product Scenario.errorsOnly).
  - reflexivity.
  - reflexivity.
  - vm_compute. reflexivity.
Defined.

Lemma fetchAllPages_keeps_input_witness :
  ∃ more,
    Some [VModel Fixture.product; VModel Fixture.lastProduct]
    = Some ([VModel Fixture.product] ++ more).
Proof.
  apply (fetchAllPages_keeps_input Fixture.render Fixture.decodeData 1
           Fixture.client (Some [VModel Fixture.product]) Scenario.pageOptions
           (Scenario.promiseOf Scenario.allPages)
           (Some [VModel Fixture.product; VModel Fixture.lastProduct])).
  - reflexivity.
  - apply (resolves_answer [Fulfilled Fixture.secondPage]).
    vm_compute. reflexivity.
Defined.

Lemma fetchAllPages_calls_witness :
  everyCall
    (λ f graphQLParams headers,
       f = customFetcher "mock" ∧ headers = None
       ∧ ∃ values,
           graphQLParams !! "variables" = Some (VObj values)
           ∧ values !! "first" = Some (VNum 20))
    (Scenario.promiseOf Scenario.allPages).
Proof.
  apply (fetchAllPages_calls Fixture.render Fixture.decodeData 1
           Fixture.client (Some [VModel Fixture.product]) Scenario.pageOptions
           (Scenario.promiseOf Scenario.allPages)).
  reflexivity.
Defined.

Lemma fetchAllPages_empty_page_repeats_witness :
  ∃ graphQLParams,
    ∀ fuel,
      ∃ promise,
        fetchAllPages Fixture.render Fixture.decodeData fuel Fixture.client
          (Some [VModel Fixture.product]) Scenario.pageOptions
        = Return promise
        ∧ (∀ n, (n ≤ fuel)%nat →
             ∃ k, answer (replicate n (Fulfilled Scenario.emptyPage)) promise
                  = Await (fetcher Fixture.client) graphQLParams None k)
        ∧ answer (replicate (S fuel) (Fulfilled Scenario.emptyPage)) promise
          = Pending.
Proof.
  apply (fetchAllPages_empty_page_repeats Fixture.render Fixture.decodeData
           Fixture.client [VModel Fixture.product] Fixture.product
           Scenario.emptyPage Scenario.pageOptions).
  - reflexivity.
  - reflexivity.
  - exists Fixture.nodeQuery, ["node"; "products"],
      (get Scenario.emptyPage "data").
    repeat split; vm_compute; reflexivity.
Defined.

Lemma fetchAllPages_missing_page_rejects_witness :
  ∃ graphQLParams k,
    fetchAllPages Fixture.render Fixture.decodeData 1 Fixture.client
      (Some [VModel Fixture.product]) Scenario.pageOptions
    = Return (Await (fetcher Fixture.client) graphQLParams None k)
    ∧ k (Fulfilled Scenario.holePage) = Rejected TypeError.
Proof.
  apply (fetchAllPages_missing_page_rejects Fixture.render Fixture.decodeData
           0 Fixture.client [VModel Fixture.product] Fixture.product
           Fixture.nodeQuery ["node"; "products"] Scenario.holePage
           (get Scenario.holePage "data") VUndefined Scenario.pageOptions).
  - reflexivity.
  - reflexivity.
  - reflexivity.
  - vm_compute. reflexivity.
  - reflexivity.
  - vm_compute. reflexivity.
  - left. reflexivity.
Defined.

Lemma fetchAllPages_null_and_holes_witness :
  fetchAllPages Fixture.render Fixture.decodeData 3 Fixture.client
    (Some [VModel Fixture.product; VNull]) Scenario.pageOptions
  = Throw TypeError.
Proof.
  apply (fetchAllPages_null_and_holes Fixture.render Fixture.decodeData 3
           Fixture.client [VModel Fixture.product] VNull Scenario.pageOptions).
  right. reflexivity.
Defined.

Lemma fetchAllPages_collects_pages_witness :
  ∃ promise,
    fetchAllPages Fixture.render Fixture.decodeData 1 Fixture.client
      (Some [VModel Fixture.product]) Scenario.pageOptions
    = Return promise
    ∧ answer [Fulfilled Fixture.secondPage] promise
      = Resolved (Some [VModel Fixture.product; VModel Fixture.lastProduct]).
Proof.
  apply (fetchAllPages_collects_pages Fixture.render Fixture.decodeData 1
           Fixture.client [VModel Fixture.product] [Fixture.secondPage]
           [VModel Fixture.product; VModel Fixture.lastProduct]
           Scenario.pageOptions).
  - apply (paged_more Fixture.decodeData Fixture.client (VNum 20)
             [VModel Fixture.product] Fixture.product Fixture.secondPage
             [VModel Fixture.lastProduct] []).
    + reflexivity.
    + reflexivity.
    + exists Fixture.nodeQuery, ["node"; "products"],
        (get Fixture.secondPage "data").
      repeat split; vm_compute; reflexivity.
    + apply (paged_done Fixture.decodeData Fixture.client (VNum 20)
               [VModel Fixture.product; VModel Fixture.lastProduct]
               (VBool false)); reflexivity.
  - simpl. lia.
Defined.
